(** * Melaleuca Mirror: storage/Firestore reconciliation sweep and
      de-render generation handler

    A shallow embedding of the two route handlers of the repository,

      - [src/app/api/sync-sessions/route.ts]  ([POST] sweep, [GET] dry run)
      - the generation route ([POST]), which uploads the before/after images
        and records a generation document,

    together with the JavaScript primitives they call (string methods, the
    three regular expressions, [parseInt], [Set] insertion), and the
    properties of the handlers that the specification states. *)

From Stdlib Require Import ZArith Lia Bool Ascii String List.
From Stdlib Require DecimalString.
From stdpp Require Import base option list strings gmap.

Local Open Scope string_scope.
Local Open Scope list_scope.

(* ===================================================================== *)
(** * Part I: definitions                                                 *)
(* ===================================================================== *)

(** ** JavaScript values used by the handlers *)

Module Js.

(** *** Strings

    A string is a sequence of code units; the handlers only ever compare
    code units with ['/'], ['-'], ['.'], letters and the ASCII digits. *)

Definition isSlash (c : ascii) : bool := Ascii.eqb c "/".
Definition notSlash (c : ascii) : bool := negb (isSlash c).
Definition notHyphen (c : ascii) : bool := negb (Ascii.eqb c "-").

(** [\d] without the unicode flag: the ten ASCII digits. *)
Definition isDigit (c : ascii) : bool :=
  let n := N_of_ascii c in (48 <=? n)%N && (n <=? 57)%N.

Definition digitValue (c : ascii) : Z := Z.of_N (N_of_ascii c) - 48.

(** Every code unit of [s] satisfies [p]. *)
Fixpoint forallb_str (p : ascii -> bool) (s : string) : bool :=
  match s with
  | EmptyString => true
  | String c s' => p c && forallb_str p s'
  end.

Definition nonEmpty (s : string) : bool :=
  match s with EmptyString => false | String _ _ => true end.

(** [s.startsWith(p)] *)
Fixpoint startsWith (s p : string) {struct p} : bool :=
  match p, s with
  | EmptyString, _ => true
  | String a p', String b s' => Ascii.eqb a b && startsWith s' p'
  | String _ _, EmptyString => false
  end.

(** [s.endsWith(p)]: [p] is [s] or a proper tail of [s]. *)
Fixpoint endsWith (s p : string) : bool :=
  String.eqb s p ||
  match s with
  | EmptyString => false
  | String _ s' => endsWith s' p
  end.

(** [s.includes(p)]: [p] starts at some position of [s]. *)
Fixpoint includes (s p : string) : bool :=
  startsWith s p ||
  match s with
  | EmptyString => false
  | String _ s' => includes s' p
  end.

(** [s.split('/')], always a non-empty array. *)
Fixpoint split (sep : ascii) (s : string) : list string :=
  match s with
  | EmptyString => [EmptyString]
  | String c s' =>
      if Ascii.eqb c sep then EmptyString :: split sep s'
      else match split sep s' with
           | seg :: segs => String c seg :: segs
           | [] => [String c EmptyString]
           end
  end.

(** [s.split('/').pop() || '']: the last segment; [pop] is [undefined] only
    on an empty array, which [split] never gives, so the value is the same
    at the call site that omits the [|| '']. *)
Definition splitPop (s : string) : string := default "" (last (split "/" s)).

(** The remainder of [s] after the literal [p], when [s] starts with it. *)
Fixpoint stripPrefix (p s : string) : option string :=
  match p, s with
  | EmptyString, _ => Some s
  | String a p', String b s' =>
      if Ascii.eqb a b then stripPrefix p' s' else None
  | String _ _, EmptyString => None
  end.

(** The greedy run of a character class: the longest prefix of [s] whose
    code units satisfy [p], and what follows it. *)
Fixpoint span (p : ascii -> bool) (s : string) : string * string :=
  match s with
  | EmptyString => (EmptyString, EmptyString)
  | String c s' =>
      if p c then let '(run, rest) := span p s' in (String c run, rest)
      else (EmptyString, s)
  end.

(** *** Numbers

    A JavaScript number is an IEEE double.  The handlers only produce
    non-negative integral values ([Date.now()], [parseInt] of a digit
    string), so a number is modelled by the integer it denotes, with
    [Infinity] and [NaN] for the two non-finite results of [parseInt]. *)

Inductive number : Type :=
| Finite (z : Z)
| Infinity
| NaN.

(** The number value of a non-negative mathematical integer: the nearest
    double, ties to the even significand; [2^1024] and above is
    [Infinity].  Integers below [2^53] are exact. *)
Definition numberOfInteger (z : Z) : number :=
  if (z <? 2 ^ 53)%Z then Finite z
  else
    let e := (Z.log2 z - 52)%Z in
    let q := (z / 2 ^ e)%Z in
    let r := (z mod 2 ^ e)%Z in
    let half := (2 ^ (e - 1))%Z in
    let q' := if (r <? half)%Z then q
              else if (half <? r)%Z then (q + 1)%Z
              else if Z.even q then q else (q + 1)%Z in
    let v := (q' * 2 ^ e)%Z in
    if (2 ^ 1024 <=? v)%Z then Infinity else Finite v.

(** The mathematical value of a run of decimal digits. *)
Fixpoint decimalValueFrom (acc : Z) (s : string) : Z :=
  match s with
  | EmptyString => acc
  | String c s' => decimalValueFrom (10 * acc + digitValue c)%Z s'
  end.

Definition decimalValue (s : string) : Z := decimalValueFrom 0 s.

(** [parseInt(s)] with no radix, for a string that starts neither with white
    space, a sign nor [0x] (both call sites pass the text matched by [\d+]):
    the longest prefix of decimal digits is read, [NaN] when it is empty. *)
Definition parseInt (s : string) : number :=
  let '(digits, _) := span isDigit s in
  if nonEmpty digits then numberOfInteger (decimalValue digits) else NaN.

(** *** Sets

    A [Set<string>] keeps its elements in insertion order and ignores the
    insertion of an element it already holds. *)

Definition setAdd (x : string) (s : list string) : list string :=
  if bool_decide (x ∈ s) then s else s ++ [x].

(** *** Thrown values and the handlers' effect monad *)

(** What a [catch] clause receives: an [Error] with its [message], or any
    other value, kept as its [String(...)] rendering. *)
Inductive thrown : Type :=
| ErrorObject (message : string)
| OtherValue (rendering : string).

(** [error instanceof Error ? error.message : String(error)] *)
Definition errorText (e : thrown) : string :=
  match e with
  | ErrorObject m => m
  | OtherValue s => s
  end.

Inductive outcome (A : Type) : Type :=
| Returned (a : A)
| Threw (e : thrown).
Arguments Returned {A} a.
Arguments Threw {A} e.

(** A computation over a store [S] that returns or throws; effects made
    before a throw stay in the store. *)
Definition M (S A : Type) : Type := S -> outcome A * S.

Definition ret {S A} (a : A) : M S A := fun s => (Returned a, s).

Definition throw {S A} (e : thrown) : M S A := fun s => (Threw e, s).

Definition bind {S A B} (m : M S A) (k : A -> M S B) : M S B :=
  fun s =>
    match m s with
    | (Returned a, s') => k a s'
    | (Threw e, s') => (Threw e, s')
    end.

(** [try { m } catch (e) { h e }] *)
Definition tryCatch {S A} (m : M S A) (h : thrown -> M S A) : M S A :=
  fun s =>
    match m s with
    | (Returned a, s') => (Returned a, s')
    | (Threw e, s') => h e s'
    end.

(** [xs.map(f)] where [f] has effects, left to right. *)
Fixpoint mapM {S A B} (f : A -> M S B) (xs : list A) : M S (list B) :=
  match xs with
  | [] => ret []
  | x :: xs' =>
      bind (f x) (fun y => bind (mapM f xs') (fun ys => ret (y :: ys)))
  end.

(** [for (const x of xs) { acc = body acc x }] *)
Fixpoint forOf {S A R} (body : R -> A -> M S R) (acc : R) (xs : list A)
  : M S R :=
  match xs with
  | [] => ret acc
  | x :: xs' => bind (body acc x) (fun acc' => forOf body acc' xs')
  end.

(** [NextResponse.json(body, { status })]; the status defaults to 200. *)
Record response (B : Type) : Type := Response { status : Z; body : B }.
Arguments Response {B} status body.
Arguments status {B} r.
Arguments body {B} r.

Definition json {B} (b : B) : response B := Response 200 b.
Definition jsonStatus {B} (b : B) (st : Z) : response B := Response st b.

End Js.

Notation "x <- m ;; k" := (Js.bind m (fun x => k))
  (at level 100, m at next level, right associativity).
Notation "m ;;; k" := (Js.bind m (fun _ => k))
  (at level 100, right associativity).

(** ** The reconciliation sweep: [src/app/api/sync-sessions/route.ts] *)

Module Sync.
Import Js.

Definition bucketName : string := "melaleuca-mirror.firebasestorage.app".

(** *** The three regular expressions *)

(** [name.match(/^sessions\/([^\/]+)\//)], giving capture group 1.  After
    the literal, the greedy class run stops at the first ['/'] or at the end
    of the string; giving characters back cannot help, since the next
    pattern character is exactly the one the class excludes. *)
Definition matchSessionFolder (name : string) : option string :=
  match stripPrefix "sessions/" name with
  | None => None
  | Some rest =>
      let '(id, tail) := span notSlash rest in
      if nonEmpty id && startsWith tail "/" then Some id else None
  end.

(** [/^\d+$/.test(s)] *)
Definition testAllDigits (s : string) : bool :=
  let '(digits, tail) := span isDigit s in
  nonEmpty digits && negb (nonEmpty tail).

(** [/foundation-([^-]+)-(\d+)\.jpg/] tried at the first position of [s],
    giving capture groups 1 and 2. *)
Definition matchFoundationHere (s : string) : option (string * string) :=
  match stripPrefix "foundation-" s with
  | None => None
  | Some r0 =>
      let '(sku, r1) := span notHyphen r0 in
      if nonEmpty sku then
        match stripPrefix "-" r1 with
        | None => None
        | Some r2 =>
            let '(digits, r3) := span isDigit r2 in
            if nonEmpty digits && startsWith r3 ".jpg"
            then Some (sku, digits) else None
        end
      else None
  end.

(** [fileName.match(/foundation-([^-]+)-(\d+)\.jpg/)]: the pattern is not
    anchored, so the leftmost position at which it matches wins. *)
Fixpoint matchFoundation (s : string) : option (string * string) :=
  match matchFoundationHere s with
  | Some m => Some m
  | None =>
      match s with
      | EmptyString => None
      | String _ s' => matchFoundation s'
      end
  end.

(** *** Documents *)

Record tryon : Type := Tryon {
  sku : string;
  timestamp : number;
  imageUrl : string
}.

Record sessionDoc : Type := SessionDoc {
  createdAt : number;
  originalImageUrl : option string;
  originalMimeType : string;
  derenderedImageUrl : option string;
  derenderedMimeType : string;
  model : string;
  derenderPrompt : string;
  foundationTryons : list tryon;
  status : string;
  completedAt : option number;
  syncedFromStorage : bool;
  syncedAt : number
}.

(** *** The world outside the handler *)

(** The [sessions] collection of the document store and the number of
    [Date.now()] readings taken so far. *)
Record world : Type := World {
  docs : gmap string sessionDoc;
  ticks : nat
}.

(** What one request meets: the configured secret, the bucket listing (or
    the error [getFiles] throws), the successive clock readings, and the
    document-store calls that throw.  A [set] that throws leaves the
    collection as it was. *)
Record env : Type := Env {
  SYNC_SECRET : option string;
  listing : outcome (list string);
  clock : nat -> Z;
  getFault : string -> option thrown;
  setFault : string -> sessionDoc -> option thrown
}.

(** The JSON body of the request as [POST] sees it. *)
Inductive requestBody : Type :=
| Unparseable                      (* [req.json()] rejects: [catch(() => ({}))] *)
| NullBody                         (* the body is [null]: destructuring throws *)
| ObjectBody (secret : option string).

Record detail : Type := Detail {
  sessionId : string;
  outcomeStatus : string;
  error : option string
}.

Record results : Type := Results {
  totalFolders : nat;
  alreadySynced : nat;
  newlyCreated : nat;
  failed : nat;
  details : list detail
}.

Inductive postBody : Type :=
| Tally (r : results)
| PostError (error : string) (details : option string).

Record status_report : Type := StatusReport {
  totalFoldersSeen : nat;
  inFirestore : nat;
  missingFromFirestore : nat;
  missing : list string
}.

Inductive getBody : Type :=
| Report (r : status_report)     (* the [message] field repeats [missingFromFirestore] *)
| GetError (error : string) (details : option string).

Section Handlers.
Variable E : env.

(** [Date.now()] *)
Definition dateNow : M world number :=
  fun w => (Returned (Finite (clock E (ticks w))),
            World (docs w) (S (ticks w))).

(** [db.collection('sessions').doc(id).get()], reduced to [doc.exists] *)
Definition docExists (id : string) : M world bool :=
  fun w =>
    match getFault E id with
    | Some e => (Threw e, w)
    | None => (Returned (bool_decide (is_Some (docs w !! id))), w)
    end.

(** [docRef.set(d)] *)
Definition docSet (id : string) (d : sessionDoc) : M world unit :=
  fun w =>
    match setFault E id d with
    | Some e => (Threw e, w)
    | None => (Returned tt, World (<[id := d]> (docs w)) (ticks w))
    end.

(** [bucket.getFiles({ prefix: 'sessions/' })], reduced to the names *)
Definition getFiles : M world (list string) :=
  fun w =>
    match listing E with
    | Returned fs => (Returned fs, w)
    | Threw e => (Threw e, w)
    end.

(** Lines 23-24 and 136-137: the callback of [files.forEach]. *)
Definition noteFolder (folders : list string) (name : string) : list string :=
  match matchSessionFolder name with
  | Some id => setAdd id folders
  | None => folders
  end.

(** Lines 21-25 and 134-137: the distinct folder names, in the order of
    their first occurrence. *)
Definition sessionFolders (files : list string) : list string :=
  fold_left noteFolder files [].

(** Line 54 *)
Definition sessionFiles (files : list string) (id : string) : list string :=
  List.filter (fun name => startsWith name ("sessions/" +:+ id +:+ "/")) files.

(** Lines 81-83 *)
Definition foundationFiles (sfiles : list string) : list string :=
  List.filter
    (fun name => includes name "foundation-" && endsWith name ".jpg")
    sfiles.

(** Lines 86-95: the entry of one foundation file. *)
Definition tryonOf (name : string) : M world tryon :=
  let fileName := splitPop name in
  let url := "https://storage.googleapis.com/" +:+ bucketName +:+ "/" +:+ name in
  match matchFoundation fileName with
  | Some (s, d) => ret (Tryon s (parseInt d) url)
  | None => now <- dateNow ;; ret (Tryon "unknown" now url)
  end.

(** Lines 49-96: the record synthesised for a folder without a document.
    The clock is read for [createdAt] (when the name is not all digits), then
    for [syncedAt], then once per foundation file that does not match.  The
    guard [foundationFiles.length > 0] of line 85 only skips mapping an empty
    array onto the [[]] the field already holds. *)
Definition synthesize (files : list string) (id : string) : M world sessionDoc :=
  created <- (if testAllDigits id then ret (parseInt id) else dateNow) ;;
  let sfiles := sessionFiles files id in
  let fileNames := map splitPop sfiles in
  let hasOriginal := bool_decide ("original.jpg" ∈ fileNames) in
  let hasDerendered := bool_decide ("derendered.jpg" ∈ fileNames) in
  synced <- dateNow ;;
  tryons <- mapM tryonOf (foundationFiles sfiles) ;;
  ret (SessionDoc
         created
         (if hasOriginal
          then Some ("https://storage.googleapis.com/" +:+ bucketName
                     +:+ "/sessions/" +:+ id +:+ "/original.jpg")
          else None)
         "image/jpeg"
         (if hasDerendered
          then Some ("https://storage.googleapis.com/" +:+ bucketName
                     +:+ "/sessions/" +:+ id +:+ "/derendered.jpg")
          else None)
         "image/jpeg"
         "gemini-3-pro-image-preview"
         "Synced from storage - original prompt not available"
         tryons
         "active"
         None
         true
         synced).

Definition countSynced (r : results) (id : string) : results :=
  Results (totalFolders r) (S (alreadySynced r)) (newlyCreated r) (failed r)
          (details r ++ [Detail id "already_exists" None]).

Definition countCreated (r : results) (id : string) : results :=
  Results (totalFolders r) (alreadySynced r) (S (newlyCreated r)) (failed r)
          (details r ++ [Detail id "created" None]).

Definition countFailed (r : results) (id : string) (e : thrown) : results :=
  Results (totalFolders r) (alreadySynced r) (newlyCreated r) (S (failed r))
          (details r ++ [Detail id "failed" (Some (errorText e))]).

(** Lines 38-111: the body of the loop.  [results] is only touched after
    the last call of its branch that can throw, so it is passed along
    rather than kept in the store. *)
Definition syncSession (files : list string) (r : results) (id : string)
  : M world results :=
  tryCatch
    (present <- docExists id ;;
     if present then ret (countSynced r id)
     else
       d <- synthesize files id ;;
       docSet id d ;;;
       ret (countCreated r id))
    (fun e => ret (countFailed r id e)).

(** Lines 17-116: the sweep proper, once the caller is let in. *)
Definition sweep : M world (response postBody) :=
  files <- getFiles ;;
  let folders := sessionFolders files in
  r <- forOf (syncSession files) (Results (length folders) 0 0 0 []) folders ;;
  ret (json (Tally r)).

(** Line 7: [const { secret } = await req.json().catch(() => ({}))] *)
Definition readSecret (b : requestBody) : M world (option string) :=
  match b with
  | Unparseable => ret None
  | NullBody => throw (ErrorObject "Cannot destructure property 'secret' of null")
  | ObjectBody s => ret s
  end.

(** Line 10: [expectedSecret && secret !== expectedSecret]; an empty
    configured secret is falsy. *)
Definition refused (secret : option string) : bool :=
  match SYNC_SECRET E with
  | None => false
  | Some expected =>
      nonEmpty expected && negb (bool_decide (secret = Some expected))
  end.

Definition POST (b : requestBody) : M world (response postBody) :=
  tryCatch
    (secret <- readSecret b ;;
     if refused secret
     then ret (jsonStatus (PostError "Unauthorized" None) 401)
     else sweep)
    (fun e => ret (jsonStatus
                     (PostError "Internal Server Error" (Some (errorText e)))
                     500)).

(** Lines 147-157: the dry run's loop; nothing catches inside it. *)
Definition checkSession (r : status_report) (id : string)
  : M world status_report :=
  present <- docExists id ;;
  if present
  then ret (StatusReport (totalFoldersSeen r) (S (inFirestore r))
                         (missingFromFirestore r) (missing r))
  else ret (StatusReport (totalFoldersSeen r) (inFirestore r)
                         (S (missingFromFirestore r)) (missing r ++ [id])).

Definition GET : M world (response getBody) :=
  tryCatch
    (files <- getFiles ;;
     let folders := sessionFolders files in
     r <- forOf checkSession (StatusReport (length folders) 0 0 []) folders ;;
     ret (json (Report r)))
    (fun e => ret (jsonStatus
                     (GetError "Internal Server Error" (Some (errorText e)))
                     500)).

End Handlers.

End Sync.

(** ** The generation handler ([POST] of the de-render route) *)

Module Derender.
Import Js.

Definition bucketName : string := "melaleuca-mirror.firebasestorage.app".

Definition modelName : string := "gemini-3-pro-image-preview".

Definition prompt : string :=
  "Remove all makeup to reveal a clean, fresh-faced, natural look. The skin should look healthy and clear with realistic micro-texture, but free of blemishes. Do not smooth the skin excessively.".

(** *** The model's response, as far as the handler looks into it *)

Record inlineData : Type := InlineData { data : string; mimeType : string }.

Record part : Type := Part {
  partInlineData : option inlineData;
  partText : option string
}.

Record content : Type := Content { parts : option (list part) }.

Record candidate : Type := Candidate { candidateContent : option content }.

(** [text] is the result of calling the SDK's [response.text()] helper:
    the value it returns ([None] for [undefined]) or what it throws. *)
Record modelResponse : Type := ModelResponse {
  candidates : option (list candidate);
  text : outcome (option string)
}.

(** *** Documents and stored objects *)

Record generationDoc : Type := GenerationDoc {
  timestamp : Z;
  originalImageUrl : string;
  originalMimeType : string;
  processedImageUrl : string;
  processedMimeType : string;
  model : string;
  docPrompt : string
}.

(** An object written by [file.save(buffer, { metadata, public })]; the
    buffer is kept as the base64 text it was decoded from. *)
Record storedObject : Type := StoredObject {
  base64 : string;
  contentType : string;
  public : bool
}.

Record world : Type := World {
  objects : gmap string storedObject;
  generations : list generationDoc;
  ticks : nat
}.

Record env : Type := Env {
  GOOGLE_API_KEY : option string;
  generateContent : inlineData -> outcome modelResponse;
  clock : nat -> Z;
  saveFault : string -> option thrown;
  addFault : generationDoc -> option thrown
}.

Inductive requestBody : Type :=
| Unparseable (e : thrown)              (* [req.json()] rejects *)
| NullBody                              (* destructuring [null] throws *)
| ObjectBody (image mimeType : option string).

Inductive genBody : Type :=
| ImageBody (image mimeType : string)
| ErrorBody (error : string) (rawText details : option string).

(** Truthiness of a value that is a string or [undefined]. *)
Definition truthy (v : option string) : bool :=
  match v with
  | Some s => nonEmpty s
  | None => false
  end.

(** [v || d] *)
Definition orElse (v : option string) (d : string) : string :=
  match v with
  | Some s => if nonEmpty s then s else d
  | None => d
  end.

(** The decimal rendering of a timestamp inside a template string. *)
Definition numberToString (z : Z) : string :=
  DecimalString.NilZero.string_of_int (Z.to_int z).

(** Line 99: [response.candidates?.[0]?.content?.parts] *)
Definition firstParts (r : modelResponse) : option (list part) :=
  match candidates r with
  | Some (c :: _) =>
      match candidateContent c with
      | Some ct => parts ct
      | None => None
      end
  | _ => None
  end.

(** Line 100: [parts?.find(p => p.inlineData)?.inlineData] *)
Definition findInlineData (r : modelResponse) : option inlineData :=
  match firstParts r with
  | Some ps =>
      match List.find (fun p => bool_decide (is_Some (partInlineData p))) ps with
      | Some p => partInlineData p
      | None => None
      end
  | None => None
  end.

Section Handler.
Variable E : env.

Definition dateNow : M world Z :=
  fun w => (Returned (clock E (ticks w)),
            World (objects w) (generations w) (S (ticks w))).

(** Line 36: [const { image, mimeType } = await req.json()] *)
Definition readBody (b : requestBody)
  : M world (option string * option string) :=
  match b with
  | Unparseable e => throw e
  | NullBody => throw (ErrorObject "Cannot destructure property 'image' of null")
  | ObjectBody i m => ret (i, m)
  end.

(** Line 83-84 *)
Definition callModel (i : inlineData) : M world modelResponse :=
  fun w =>
    match generateContent E i with
    | Returned r => (Returned r, w)
    | Threw e => (Threw e, w)
    end.

(** Line 161: [response.text()] *)
Definition callText (r : modelResponse) : M world (option string) :=
  fun w =>
    match text r with
    | Returned t => (Returned t, w)
    | Threw e => (Threw e, w)
    end.

(** Lines 109-121: [uploadImage], giving the public URL. *)
Definition uploadImage (stamp : Z) (base64Data fileName imageMimeType : string)
  : M world string :=
  let name := "generations/" +:+ numberToString stamp +:+ "/" +:+ fileName in
  fun w =>
    match saveFault E name with
    | Some e => (Threw e, w)
    | None =>
        (Returned ("https://storage.googleapis.com/" +:+ bucketName +:+ "/" +:+ name),
         World (<[name := StoredObject base64Data imageMimeType true]> (objects w))
               (generations w) (ticks w))
    end.

(** Line 147: [db.collection('generations').add(doc)] *)
Definition addGeneration (d : generationDoc) : M world unit :=
  fun w =>
    match addFault E d with
    | Some e => (Threw e, w)
    | None => (Returned tt, World (objects w) (generations w ++ [d]) (ticks w))
    end.

(** Lines 105-148: the body of the inner [try]. *)
Definition persist (image : string) (mime : option string) (out : inlineData)
  : M world unit :=
  stamp <- dateNow ;;
  originalUrl <- uploadImage stamp image "original.jpg" (orElse mime "image/jpeg") ;;
  processedUrl <- uploadImage stamp (data out) "processed.jpg" (mimeType out) ;;
  addGeneration
    (GenerationDoc stamp originalUrl (orElse mime "image/jpeg")
                   processedUrl (mimeType out) modelName prompt).

Definition POST (b : requestBody) : M world (response genBody) :=
  tryCatch
    (im <- readBody b ;;
     let '(image, mime) := im in
     if negb (truthy image)
     then ret (jsonStatus (ErrorBody "Image data is required" None None) 400)
     else if negb (truthy (GOOGLE_API_KEY E))
     then ret (jsonStatus (ErrorBody "GOOGLE_API_KEY is not set" None None) 500)
     else
       let img := orElse image "" in
       r <- callModel (InlineData img (orElse mime "image/jpeg")) ;;
       match findInlineData r with
       | Some out =>
           tryCatch (persist img mime out) (fun _ => ret tt) ;;;
           ret (json (ImageBody (data out) (mimeType out)))
       | None =>
           textOutput <- callText r ;;
           ret (json (ErrorBody "No image generated by model" textOutput None))
       end)
    (fun e => ret (jsonStatus
                     (ErrorBody "Internal Server Error" None (Some (errorText e)))
                     500)).

End Handler.

End Derender.

(** ** The path and file-name conventions, read declaratively

    What the three patterns and the string tests of the sweep mean, stated
    without reference to how they are matched. *)

Module Patterns.
Import Js.

(** What follows a greedy run does not start with a character of the class. *)
Definition stopsAt (p : ascii -> bool) (rest : string) : Prop :=
  match rest with
  | EmptyString => True
  | String c _ => p c = false
  end.

(** A folder name: a non-empty path segment. *)
Definition FolderName (id : string) : Prop :=
  id <> "" /\ forallb_str notSlash id = true.

(** [name] lies under [sessions/<id>/]. *)
Definition Under (id name : string) : Prop :=
  exists rest, name = "sessions/" +:+ id +:+ "/" +:+ rest.

(** [name] is the object [sessions/<id>/<leaf>], directly in the folder. *)
Definition DirectlyUnder (id leaf name : string) : Prop :=
  name = "sessions/" +:+ id +:+ "/" +:+ leaf.

(** [s] consists entirely of digits ([\d+]). *)
Definition AllDigits (s : string) : Prop :=
  s <> "" /\ forallb_str isDigit s = true.

(** [s] starts with [foundation-<sku>-<digits>.jpg]. *)
Definition FoundationAt (s sku digits : string) : Prop :=
  exists post,
    s = "foundation-" +:+ sku +:+ "-" +:+ digits +:+ ".jpg" +:+ post /\
    sku <> "" /\ forallb_str notHyphen sku = true /\ AllDigits digits.

(** The pattern occurs in [s], and [sku], [digits] are those of its
    leftmost occurrence. *)
Inductive FoundationMatch : string -> string -> string -> Prop :=
| match_here s sku digits :
    FoundationAt s sku digits -> FoundationMatch s sku digits
| match_later c s sku digits :
    (forall sku' digits', ~ FoundationAt (String c s) sku' digits') ->
    FoundationMatch s sku digits ->
    FoundationMatch (String c s) sku digits.

(** The pattern occurs nowhere in [s]. *)
Definition NoFoundation (s : string) : Prop :=
  forall pre rest sku digits, s = pre +:+ rest -> ~ FoundationAt rest sku digits.

(** The public URL of the object [name]. *)
Definition publicUrl (name : string) : string :=
  "https://storage.googleapis.com/melaleuca-mirror.firebasestorage.app/" +:+ name.

End Patterns.

(** ** What the sweep reports for one folder *)

Module Verdicts.
Import Js Sync.

(** The caller gets past lines 7-15: the body can be destructured and the
    secret is not refused. *)
Definition letIn (E : env) (b : requestBody) : bool :=
  match b with
  | Unparseable => negb (refused E None)
  | NullBody => false
  | ObjectBody secret => negb (refused E secret)
  end.

(** The same surroundings with another bucket listing. *)
Definition withListing (E : env) (files : list string) : env :=
  Env (SYNC_SECRET E) (Returned files) (clock E) (getFault E) (setFault E).

(** The number of detail entries with status [st]. *)
Definition count (st : string) (dts : list detail) : nat :=
  length (List.filter (fun dt => String.eqb (outcomeStatus dt) st) dts).

(** The entry [dt] of a folder, read against the folder's own document
    before the sweep ([prior]) and after it ([final]) and against the faults
    of the folder's own document-store calls:
    - the read throws: [failed] with the message, the document untouched;
    - a document is there: [already_exists], the document untouched;
    - otherwise a record [d] is synthesised, and either the write throws
      ([failed] with the message, still no document) or it lands
      ([created], the document is [d]). *)
Definition Settled (E : env) (files : list string)
    (prior final : option sessionDoc) (dt : detail) : Prop :=
  let id := sessionId dt in
  match getFault E id with
  | Some e => dt = Detail id "failed" (Some (errorText e)) /\ final = prior
  | None =>
      match prior with
      | Some d => dt = Detail id "already_exists" None /\ final = Some d
      | None =>
          exists w1 w2 d,
            synthesize E files id w1 = (Returned d, w2) /\
            match setFault E id d with
            | Some e => dt = Detail id "failed" (Some (errorText e)) /\ final = None
            | None => dt = Detail id "created" None /\ final = Some d
            end
      end
  end.

(** The try-on entry [t] of the foundation file [name], built while the
    clock readings [lo], ..., [hi - 1] were taken: it points at the file;
    when the pattern occurs in the file name it carries the sku and the
    parsed digits of the leftmost occurrence; when it occurs nowhere it
    carries ['unknown'] and one of those clock readings. *)
Definition EntryOf (E : env) (lo hi : nat) (name : string) (t : tryon) : Prop :=
  imageUrl t = Patterns.publicUrl name /\
  (forall s digits,
      Patterns.FoundationMatch (splitPop name) s digits ->
      sku t = s /\ timestamp t = parseInt digits) /\
  (Patterns.NoFoundation (splitPop name) ->
   sku t = "unknown" /\
   exists j, lo <= j < hi /\ timestamp t = Finite (clock E j)).

(** [r'] is [r] with the entry [dt] appended and its status counted. *)
Definition Tallied (r : results) (dt : detail) (r' : results) : Prop :=
  totalFolders r' = totalFolders r /\
  details r' = (details r ++ [dt])%list /\
  alreadySynced r' = alreadySynced r + count "already_exists" [dt] /\
  newlyCreated r' = newlyCreated r + count "created" [dt] /\
  failed r' = failed r + count "failed" [dt].

End Verdicts.

(** ** Sample surroundings *)

Module Scenario.
Import Js Sync.

Definition listed : list string :=
  [ "sessions/s1/original.jpg";
    "sessions/1700000000000/foundation-SKU42-1690000000000.jpg";
    "sessions/s1/foundation-badname.jpg";
    "sessions/readme.txt" ].

Definition ticking (n : nat) : Z := 1700000000000 + Z.of_nat n.

(** No secret configured, the listing above, no fault. *)
Definition healthy : env :=
  Env None (Returned listed) ticking (fun _ => None) (fun _ _ => None).

(** The document store refuses every write to [sessions/s1]. *)
Definition writeFails : env :=
  Env None (Returned listed) ticking (fun _ => None)
      (fun id _ => if String.eqb id "s1"
                   then Some (ErrorObject "write refused") else None).

(** The document store fails every read of [sessions/s1]. *)
Definition readFails : env :=
  Env None (Returned listed) ticking
      (fun id => if String.eqb id "s1"
                 then Some (ErrorObject "read refused") else None)
      (fun _ _ => None).

Definition emptyWorld : world := World ∅ 0.

(** A folder named by a 16-digit number above [2^53]. *)
Definition longName : env :=
  Env None (Returned ["sessions/9007199254740993/original.jpg"]) ticking
      (fun _ => None) (fun _ _ => None).

(** A folder whose only [original.jpg] sits in a sub-folder. *)
Definition nested : env :=
  Env None (Returned ["sessions/s1/sub/original.jpg"]) ticking
      (fun _ => None) (fun _ _ => None).

(** A model response whose second part carries an image. *)
Definition pictured : Derender.modelResponse :=
  Derender.ModelResponse
    (Some [Derender.Candidate
             (Some (Derender.Content
                      (Some [Derender.Part None (Some "Here you go");
                             Derender.Part
                               (Some (Derender.InlineData "QUJD" "image/png"))
                               None])))])
    (Returned (Some "Here you go")).

(** A model response with a candidate but neither image nor text; for such
    a response the SDK's [text()] returns the empty string. *)
Definition silent : Derender.modelResponse :=
  Derender.ModelResponse
    (Some [Derender.Candidate (Some (Derender.Content (Some [])))])
    (Returned (Some "")).

Definition studio (r : Derender.modelResponse) : Derender.env :=
  Derender.Env (Some "key") (fun _ => Returned r) ticking
               (fun _ => None) (fun _ => None).

(** The same, with every upload to the bucket failing. *)
Definition studioBucketDown (r : Derender.modelResponse) : Derender.env :=
  Derender.Env (Some "key") (fun _ => Returned r) ticking
               (fun _ => Some (ErrorObject "bucket unavailable")) (fun _ => None).

(** The same, with the document store refusing the generation record. *)
Definition studioStoreDown (r : Derender.modelResponse) : Derender.env :=
  Derender.Env (Some "key") (fun _ => Returned r) ticking
               (fun _ => None) (fun _ => Some (ErrorObject "store unavailable")).

Definition blank : Derender.world := Derender.World ∅ [] 0.

End Scenario.

(** ** Initialisation of the Admin SDK: [src/lib/firebaseAdmin.ts] *)

Module Admin.
Import Js.

(** The options of line 15-19. *)
Record appOptions : Type := AppOptions {
  credentialPath : string;
  projectId : string;
  storageBucket : string
}.

(** What the module meets when it is evaluated: the value of
    [path.join(process.cwd(), 'from_richard', '...json')], and the calls of
    the SDK that throw ([admin.credential.cert] on an unreadable file,
    [admin.initializeApp] on options it rejects). *)
Record env : Type := Env {
  serviceAccountPath : string;
  certFault : string -> option thrown;
  initFault : appOptions -> option thrown
}.

Section Init.
Variable E : env.

(** [admin.credential.cert(path)], kept as the path it was read from. *)
Definition cert (path : string) : M (list appOptions) string :=
  fun apps =>
    match certFault E path with
    | Some e => (Threw e, apps)
    | None => (Returned path, apps)
    end.

(** [admin.initializeApp(options)]: the app joins [admin.apps]. *)
Definition initializeApp (o : appOptions) : M (list appOptions) unit :=
  fun apps =>
    match initFault E o with
    | Some e => (Threw e, apps)
    | None => (Returned tt, apps ++ [o])
    end.

(** Lines 7-25, run on the registered apps. *)
Definition initialize : M (list appOptions) unit :=
  fun apps =>
    if bool_decide (length apps = 0)
    then
      tryCatch
        (credential <- cert (serviceAccountPath E) ;;
         initializeApp
           (AppOptions credential "melaleuca-mirror"
                       "melaleuca-mirror.firebasestorage.app"))
        (fun _ => ret tt)
        apps
    else ret tt apps.

End Init.

End Admin.

(** ** What the handlers leave behind, read declaratively *)

Module Expect.
Import Js.

(** A record as the sweep writes it for the folder [id]: flagged as
    backfilled, with the fixed placeholders, and with each image URL either
    absent or the public URL of the object directly in the folder. *)
Definition Backfilled (id : string) (d : Sync.sessionDoc) : Prop :=
  Sync.syncedFromStorage d = true /\
  Sync.status d = "active" /\
  Sync.completedAt d = None /\
  Sync.originalMimeType d = "image/jpeg" /\
  Sync.derenderedMimeType d = "image/jpeg" /\
  Sync.model d = "gemini-3-pro-image-preview" /\
  Sync.derenderPrompt d = "Synced from storage - original prompt not available" /\
  (Sync.originalImageUrl d = None \/
   Sync.originalImageUrl d
   = Some (Patterns.publicUrl ("sessions/" +:+ id +:+ "/original.jpg"))) /\
  (Sync.derenderedImageUrl d = None \/
   Sync.derenderedImageUrl d
   = Some (Patterns.publicUrl ("sessions/" +:+ id +:+ "/derendered.jpg"))).

(** The folder [id] has a document in [w]. *)
Definition synced (w : Sync.world) (id : string) : bool :=
  bool_decide (is_Some (Sync.docs w !! id)).

(** The entry of a folder when no document-store call throws. *)
Definition quietEntry (w : Sync.world) (id : string) : Sync.detail :=
  Sync.Detail id (if synced w id then "already_exists" else "created") None.

(** The name of an object of the generation taken at [stamp]. *)
Definition objectName (stamp : Z) (fileName : string) : string :=
  "generations/" +:+ Derender.numberToString stamp +:+ "/" +:+ fileName.

(** The generation record of a request, taken at [stamp]. *)
Definition recordOf (stamp : Z) (mime : option string) (out : Derender.inlineData)
  : Derender.generationDoc :=
  Derender.GenerationDoc
    stamp
    (Patterns.publicUrl (objectName stamp "original.jpg"))
    (Derender.orElse mime "image/jpeg")
    (Patterns.publicUrl (objectName stamp "processed.jpg"))
    (Derender.mimeType out)
    "gemini-3-pro-image-preview"
    Derender.prompt.

End Expect.

(** ** The courses of the generation handler *)

Module Courses.
Import Js Derender.

(** Every way the handler can go. *)
Inductive Course (E : env) (w : world)
  : requestBody -> response genBody -> world -> Prop :=
| unreadable e :
    Course E w (Unparseable e)
      (Response 500 (ErrorBody "Internal Server Error" None (Some (errorText e)))) w
| null_body m :
    Course E w NullBody
      (Response 500 (ErrorBody "Internal Server Error" None (Some m))) w
| no_image image mime :
    truthy image = false ->
    Course E w (ObjectBody image mime)
      (Response 400 (ErrorBody "Image data is required" None None)) w
| no_key image mime :
    truthy image = true -> truthy (GOOGLE_API_KEY E) = false ->
    Course E w (ObjectBody image mime)
      (Response 500 (ErrorBody "GOOGLE_API_KEY is not set" None None)) w
| model_threw img mime e :
    generateContent E (InlineData img (orElse mime "image/jpeg")) = Threw e ->
    Course E w (ObjectBody (Some img) mime)
      (Response 500 (ErrorBody "Internal Server Error" None (Some (errorText e)))) w
| pictured img mime r out :
    generateContent E (InlineData img (orElse mime "image/jpeg")) = Returned r ->
    findInlineData r = Some out ->
    Course E w (ObjectBody (Some img) mime)
      (Response 200 (ImageBody (data out) (mimeType out)))
      (persist E img mime out w).2
| told img mime r t :
    generateContent E (InlineData img (orElse mime "image/jpeg")) = Returned r ->
    findInlineData r = None -> text r = Returned t ->
    Course E w (ObjectBody (Some img) mime)
      (Response 200 (ErrorBody "No image generated by model" t None)) w
| text_threw img mime r e :
    generateContent E (InlineData img (orElse mime "image/jpeg")) = Returned r ->
    findInlineData r = None -> text r = Threw e ->
    Course E w (ObjectBody (Some img) mime)
      (Response 500 (ErrorBody "Internal Server Error" None (Some (errorText e)))) w.

End Courses.

(** ** The file name of an object, read declaratively *)

Module Segments.
Import Js.

(** [leaf] is the last path segment of [name]: it holds no ['/'], and [name]
    is [leaf] itself or ends in ['/'] followed by [leaf]. *)
Definition LastSegment (name leaf : string) : Prop :=
  forallb_str notSlash leaf = true /\
  (name = leaf \/ exists dir, name = dir +:+ "/" +:+ leaf).

(** The try-on entry [t] of the foundation file [name], built while the clock
    readings [lo], ..., [hi - 1] were taken.  It points at the file.  With
    [leaf] the last path segment of [name], the pattern
    [foundation-<sku>-<digits>.jpg] either occurs in [leaf] or occurs
    nowhere in it: in the first case the entry carries the sku of the
    leftmost occurrence and the number value of its digits (the integer
    rounded to the nearest double); in the second it carries ['unknown'] and
    one of those clock readings. *)
Definition EntryFor (E : Sync.env) (lo hi : nat) (name : string) (t : Sync.tryon)
  : Prop :=
  Sync.imageUrl t = Patterns.publicUrl name /\
  exists leaf,
    LastSegment name leaf /\
    ((exists s digits, Patterns.FoundationMatch leaf s digits) \/
     Patterns.NoFoundation leaf) /\
    (forall s digits,
        Patterns.FoundationMatch leaf s digits ->
        Sync.sku t = s /\
        Sync.timestamp t = numberOfInteger (decimalValue digits)) /\
    (Patterns.NoFoundation leaf ->
     Sync.sku t = "unknown" /\
     exists j, lo <= j < hi /\ Sync.timestamp t = Finite (Sync.clock E j)).

End Segments.

(** ** Further sample surroundings *)

Module Cases.
Import Js.

(** A secret is configured. *)
Definition guarded : Sync.env :=
  Sync.Env (Some "s3cret") (Returned Scenario.listed) Scenario.ticking
           (fun _ => None) (fun _ _ => None).

(** The configured secret is the empty string. *)
Definition emptySecret : Sync.env :=
  Sync.Env (Some "") (Returned Scenario.listed) Scenario.ticking
           (fun _ => None) (fun _ _ => None).

(** The bucket cannot be listed. *)
Definition bucketDown : Sync.env :=
  Sync.Env None (Threw (ErrorObject "bucket unavailable")) Scenario.ticking
           (fun _ => None) (fun _ _ => None).

(** A folder with a name that is not a number, and two foundation files. *)
Definition tryons : list string :=
  [ "sessions/abc/original.jpg";
    "sessions/abc/foundation-badname.jpg";
    "sessions/abc/foundation-SKU42-1690000000000.jpg" ].

(** No API key configured. *)
Definition noKey : Derender.env :=
  Derender.Env None (fun _ => Returned Scenario.pictured) Scenario.ticking
               (fun _ => None) (fun _ => None).

(** The model call fails. *)
Definition modelDown : Derender.env :=
  Derender.Env (Some "key") (fun _ => Threw (ErrorObject "quota exceeded"))
               Scenario.ticking (fun _ => None) (fun _ => None).

(** A model response that only talks. *)
Definition talkative : Derender.modelResponse :=
  Derender.ModelResponse
    (Some [Derender.Candidate
             (Some (Derender.Content
                      (Some [Derender.Part None (Some "I cannot do that")])))])
    (Returned (Some "I cannot do that")).

(** A folder whose foundation file has a letter before the pattern. *)
Definition looseName : Sync.env :=
  Sync.Env None (Returned ["sessions/s1/xfoundation-A-1.jpg"]) Scenario.ticking
           (fun _ => None) (fun _ _ => None).

(** Foundation files whose names try the pattern: an exact name, a name with
    the pattern inside, a name without it, and a folder that carries the
    pattern in its own name. *)
Definition trying : list string :=
  [ "sessions/s1/foundation-SKU42-1690000000000.jpg";
    "sessions/s1/xfoundation-A-1.jpg";
    "sessions/s1/foundation-badname.jpg";
    "sessions/s1/foundation-A-1.jpgx/foundation-bad.jpg" ].

(** A blocked prompt: no candidate, and the SDK's [text()] throws. *)
Definition blocked : Derender.modelResponse :=
  Derender.ModelResponse None
    (Threw (ErrorObject "Text not available. Response was blocked due to SAFETY")).

(** The service-account file is there and the SDK accepts the options. *)
Definition installed : Admin.env :=
  Admin.Env "/app/from_richard/melaleuca-mirror-firebase-adminsdk-fbsvc-530d25589e.json"
            (fun _ => None) (fun _ => None).

(** The service-account file cannot be read. *)
Definition noCredential : Admin.env :=
  Admin.Env "/app/from_richard/melaleuca-mirror-firebase-adminsdk-fbsvc-530d25589e.json"
            (fun _ => Some (ErrorObject "ENOENT")) (fun _ => None).

End Cases.

(* ===================================================================== *)
(** * Part II: properties                                                 *)
(* ===================================================================== *)

(** ** Strings and the regular expressions *)

Module JsFacts.
Import Js Patterns.

Lemma append_cons c s t : String c s +:+ t = String c (s +:+ t).
Proof. reflexivity. Qed.

Lemma append_empty_l t : "" +:+ t = t.
Proof. reflexivity. Qed.

Lemma append_empty_r s : s +:+ "" = s.
Proof. induction s as [|c s IH]; [done|]. by rewrite append_cons, IH. Qed.

Lemma append_assoc s t u : (s +:+ t) +:+ u = s +:+ (t +:+ u).
Proof. induction s as [|c s IH]; [done|]. by rewrite !append_cons, IH. Qed.

Lemma ascii_eqb_true a b : Ascii.eqb a b = true <-> a = b.
Proof. apply Ascii.eqb_eq. Qed.

Lemma stripPrefix_spec p s r : stripPrefix p s = Some r <-> s = p +:+ r.
Proof.
  revert s. induction p as [|a p IH]; intros s; simpl.
  - rewrite append_empty_l. split; congruence.
  - rewrite append_cons. destruct s as [|b s]; [done|].
    destruct (Ascii.eqb a b) eqn:Hab.
    + apply ascii_eqb_true in Hab as ->. rewrite IH. split; congruence.
    + apply Ascii.eqb_neq in Hab. split; [done|congruence].
Qed.

Lemma stripPrefix_app p r : stripPrefix p (p +:+ r) = Some r.
Proof. by apply stripPrefix_spec. Qed.

Lemma startsWith_spec s p : startsWith s p = true <-> exists r, s = p +:+ r.
Proof.
  revert s. induction p as [|a p IH]; intros s; simpl.
  - split; [intros _; by exists s|done].
  - destruct s as [|b s].
    + split; [done|]. intros [r Hr]. by rewrite append_cons in Hr.
    + rewrite andb_true_iff, ascii_eqb_true, IH. split.
      * intros [-> [r ->]]. by exists r.
      * intros [r Hr]. rewrite append_cons in Hr. injection Hr as -> ->. eauto.
Qed.

Lemma includes_spec s p :
  includes s p = true <-> exists a b, s = a +:+ p +:+ b.
Proof.
  induction s as [|c s IH]; simpl.
  - rewrite orb_false_r, startsWith_spec. split.
    + intros [r ->]. by exists "", r.
    + intros [[|??] [b Hb]]; [by exists b|done].
  - rewrite orb_true_iff, startsWith_spec, IH. split.
    + intros [[r ->]|(a & b & ->)]; [by exists "", r|].
      by exists (String c a), b.
    + intros [[|c' a] [b Hb]]; [left; by exists b|right].
      rewrite append_cons in Hb. injection Hb as -> ->. eauto.
Qed.

Lemma endsWith_spec s p : endsWith s p = true <-> exists a, s = a +:+ p.
Proof.
  induction s as [|c s IH]; cbn [endsWith].
  - rewrite orb_false_r, String.eqb_eq. split.
    + intros <-. by exists "".
    + intros [[|??] Ha]; [done|by rewrite append_cons in Ha].
  - rewrite orb_true_iff, String.eqb_eq, IH. split.
    + intros [<-|[a ->]]; [by exists ""|by exists (String c a)].
    + intros [[|c' a] Ha]; [by left|right].
      rewrite append_cons in Ha. injection Ha as -> ->. eauto.
Qed.

(** *** Greedy runs *)

Lemma span_app p s : (span p s).1 +:+ (span p s).2 = s.
Proof.
  induction s as [|c s IH]; simpl; [done|].
  destruct (p c); [|done]. destruct (span p s) as [run rest]; simpl in *.
  by rewrite append_cons, IH.
Qed.

Lemma span_run p s : forallb_str p (span p s).1 = true.
Proof.
  induction s as [|c s IH]; simpl; [done|].
  destruct (p c) eqn:Hc; [|done]. destruct (span p s) as [run rest]; simpl in *.
  by rewrite Hc, IH.
Qed.

Lemma span_rest p s : stopsAt p (span p s).2.
Proof.
  induction s as [|c s IH]; simpl; [done|].
  destruct (p c) eqn:Hc; [|done]. by destruct (span p s) as [run rest].
Qed.

Lemma span_unique p run rest :
  forallb_str p run = true -> stopsAt p rest ->
  span p (run +:+ rest) = (run, rest).
Proof.
  intros Hrun Hrest. induction run as [|c run IH]; simpl in *.
  - rewrite append_empty_l. destruct rest as [|c rest]; [done|].
    simpl in *. by rewrite Hrest.
  - apply andb_true_iff in Hrun as [Hc Hrun].
    rewrite ?append_cons. simpl. by rewrite Hc, IH.
Qed.

Lemma span_all p s : forallb_str p s = true -> span p s = (s, "").
Proof.
  intros H. rewrite <-(append_empty_r s) at 1. by apply span_unique.
Qed.

Lemma nonEmpty_true s : nonEmpty s = true <-> s <> "".
Proof. by destruct s. Qed.

Lemma forallb_str_app p s t :
  forallb_str p (s +:+ t) = forallb_str p s && forallb_str p t.
Proof.
  induction s as [|c s IH]; [done|].
  rewrite append_cons. simpl. by rewrite IH, andb_assoc.
Qed.

(** *** Path segments *)

Lemma split_nonempty sep s : split sep s <> [].
Proof.
  induction s as [|c s IH]; simpl; [done|].
  destruct (Ascii.eqb c sep); [done|]. by destruct (split sep s).
Qed.

Lemma split_after_sep sep dir leaf :
  exists (seg : string) (pre : list string),
    split sep (dir +:+ String sep leaf) = (seg :: pre ++ split sep leaf)%list.
Proof.
  induction dir as [|c dir (seg & pre & IH)].
  - exists "", []. rewrite append_empty_l. simpl. by rewrite Ascii.eqb_refl.
  - rewrite append_cons. simpl. rewrite IH. destruct (Ascii.eqb c sep).
    + by exists "", (seg :: pre).
    + by exists (String c seg), pre.
Qed.

(** The last segment of [dir/leaf] is the last segment of [leaf]. *)
Lemma splitPop_after_slash dir leaf :
  splitPop (dir +:+ "/" +:+ leaf) = splitPop leaf.
Proof.
  unfold splitPop. change ("/" +:+ leaf) with (String "/" leaf).
  destruct (split_after_sep "/" dir leaf) as (seg & pre & ->).
  change (seg :: pre ++ split "/" leaf)%list with ((seg :: pre) ++ split "/" leaf)%list.
  rewrite last_app. pose proof (split_nonempty "/" leaf) as Hne.
  apply last_is_Some in Hne as [x ->]. done.
Qed.

(** A name without a slash is its own last segment. *)
Lemma splitPop_leaf leaf : forallb_str notSlash leaf = true -> splitPop leaf = leaf.
Proof.
  unfold splitPop. intros H.
  assert (split "/" leaf = [leaf]) as ->; [|done].
  induction leaf as [|c leaf IH]; simpl in *; [done|].
  apply andb_true_iff in H as [Hc H]. unfold notSlash, isSlash in Hc.
  apply negb_true_iff in Hc. rewrite Hc, IH by done. done.
Qed.

End JsFacts.

(** ** The patterns of the sweep match what they are read as *)

Module PatternFacts.
Import Js Patterns JsFacts Sync.

Lemma matchSessionFolder_spec name id :
  matchSessionFolder name = Some id <-> FolderName id /\ Under id name.
Proof.
  unfold matchSessionFolder, FolderName, Under. split.
  - destruct (stripPrefix "sessions/" name) as [r|] eqn:Hr; [|done].
    apply stripPrefix_spec in Hr as ->.
    pose proof (span_app notSlash r) as Happ.
    pose proof (span_run notSlash r) as Hrun.
    destruct (span notSlash r) as [run tail]; cbn [fst snd] in *.
    destruct (nonEmpty run && startsWith tail "/") eqn:Hok; [|done].
    apply andb_true_iff in Hok as [Hne [rest ->]%startsWith_spec].
    intros [= <-]. apply nonEmpty_true in Hne. split; [done|].
    exists rest. by rewrite Happ.
  - intros [[Hne Hns] [rest ->]]. rewrite stripPrefix_app.
    rewrite (span_unique notSlash id ("/" +:+ rest)) by done.
    apply nonEmpty_true in Hne. rewrite Hne. simpl.
    replace (startsWith ("/" +:+ rest) "/") with true; [done|].
    symmetry. apply startsWith_spec. by exists rest.
Qed.

Lemma testAllDigits_spec s : testAllDigits s = true <-> AllDigits s.
Proof.
  unfold testAllDigits, AllDigits. split.
  - pose proof (span_app isDigit s) as Happ.
    pose proof (span_run isDigit s) as Hrun.
    destruct (span isDigit s) as [run tail]; cbn [fst snd] in *.
    intros [Hne Htail]%andb_true_iff. apply nonEmpty_true in Hne.
    destruct tail; [|done]. rewrite append_empty_r in Happ. by subst.
  - intros [Hne Hall]. rewrite (span_all _ _ Hall).
    apply nonEmpty_true in Hne. by rewrite Hne.
Qed.

Lemma testAllDigits_false s : testAllDigits s = false <-> ~ AllDigits s.
Proof.
  rewrite <-testAllDigits_spec. by destruct (testAllDigits s).
Qed.

Lemma matchFoundationHere_spec s sku digits :
  matchFoundationHere s = Some (sku, digits) <-> FoundationAt s sku digits.
Proof.
  unfold matchFoundationHere, FoundationAt, AllDigits. split.
  - destruct (stripPrefix "foundation-" s) as [r0|] eqn:H0; [|done].
    apply stripPrefix_spec in H0 as ->.
    pose proof (span_app notHyphen r0) as Happ1.
    pose proof (span_run notHyphen r0) as Hrun1.
    destruct (span notHyphen r0) as [run1 r1]; cbn [fst snd] in *.
    destruct (nonEmpty run1) eqn:Hne1; [|done].
    destruct (stripPrefix "-" r1) as [r2|] eqn:H2; [|done].
    apply stripPrefix_spec in H2 as ->.
    pose proof (span_app isDigit r2) as Happ2.
    pose proof (span_run isDigit r2) as Hrun2.
    destruct (span isDigit r2) as [run2 r3]; cbn [fst snd] in *.
    destruct (nonEmpty run2 && startsWith r3 ".jpg") eqn:Hok; [|done].
    apply andb_true_iff in Hok as [Hne2 [post ->]%startsWith_spec].
    intros [= <- <-]. exists post.
    apply nonEmpty_true in Hne1, Hne2. by rewrite Happ2, Happ1.
  - intros (post & -> & Hne1 & Hsku & Hne2 & Hdig).
    rewrite stripPrefix_app.
    rewrite (span_unique notHyphen sku ("-" +:+ digits +:+ ".jpg" +:+ post)) by done.
    apply nonEmpty_true in Hne1, Hne2. rewrite Hne1.
    rewrite (stripPrefix_app "-").
    rewrite (span_unique isDigit digits (".jpg" +:+ post)) by done.
    rewrite Hne2. simpl.
    replace (startsWith (".jpg" +:+ post) ".jpg") with true; [done|].
    symmetry. apply startsWith_spec. by exists post.
Qed.

Lemma matchFoundationHere_None s :
  matchFoundationHere s = None <-> forall sku digits, ~ FoundationAt s sku digits.
Proof.
  split.
  - intros Hn sku digits H%matchFoundationHere_spec. congruence.
  - intros H. destruct (matchFoundationHere s) as [[sku digits]|] eqn:Hm; [|done].
    apply matchFoundationHere_spec in Hm. by destruct (H sku digits).
Qed.

Lemma matchFoundation_spec s sku digits :
  matchFoundation s = Some (sku, digits) <-> FoundationMatch s sku digits.
Proof.
  split.
  - induction s as [|c s IH]; cbn [matchFoundation].
    + destruct (matchFoundationHere "") as [m|] eqn:Hm; [|done].
      intros [= ->]. apply match_here. by apply matchFoundationHere_spec.
    + destruct (matchFoundationHere (String c s)) as [m|] eqn:Hm.
      * intros [= ->]. apply match_here. by apply matchFoundationHere_spec.
      * intros H. apply match_later; [|by apply IH].
        by apply matchFoundationHere_None.
  - induction 1 as [s sku digits H|c s sku digits Hno _ IH].
    + apply matchFoundationHere_spec in H. destruct s; cbn [matchFoundation]; by rewrite H.
    + apply matchFoundationHere_None in Hno. cbn [matchFoundation]. by rewrite Hno.
Qed.

Lemma matchFoundation_None s : matchFoundation s = None <-> NoFoundation s.
Proof.
  unfold NoFoundation. split.
  - intros Hn pre. revert s Hn. induction pre as [|c pre IH]; intros s Hn rest sku digits ->.
    + rewrite append_empty_l in Hn. intros H%matchFoundationHere_spec.
      destruct rest; cbn [matchFoundation] in Hn; by rewrite H in Hn.
    + rewrite append_cons in Hn. cbn [matchFoundation] in Hn.
      destruct (matchFoundationHere (String c (pre +:+ rest))); [done|].
      by apply (IH (pre +:+ rest)).
  - intros H. induction s as [|c s IH]; cbn [matchFoundation].
    + destruct (matchFoundationHere "") as [[sku digits]|] eqn:Hm; [|done].
      apply matchFoundationHere_spec in Hm. by destruct (H "" "" sku digits).
    + destruct (matchFoundationHere (String c s)) as [[sku digits]|] eqn:Hm.
      * apply matchFoundationHere_spec in Hm.
        by destruct (H "" (String c s) sku digits).
      * apply IH. intros pre rest sku digits ->.
        by apply (H (String c pre) rest sku digits).
Qed.

(** A file name that is exactly [foundation-<sku>-<digits>.jpg] matches at
    its first position, with that [sku] and those [digits]. *)
Lemma matchFoundation_exact sku digits :
  sku <> "" -> forallb_str notHyphen sku = true -> AllDigits digits ->
  matchFoundation ("foundation-" +:+ sku +:+ "-" +:+ digits +:+ ".jpg")
  = Some (sku, digits).
Proof.
  intros Hne Hsku Hdig. apply matchFoundation_spec, match_here.
  exists "". by rewrite append_empty_r.
Qed.

(** [parseInt] of a digit string is the number value of its decimal
    reading. *)
Lemma parseInt_digits s :
  AllDigits s -> parseInt s = numberOfInteger (decimalValue s).
Proof.
  intros [Hne Hall]. unfold parseInt. rewrite (span_all _ _ Hall).
  apply nonEmpty_true in Hne. by rewrite Hne.
Qed.

Lemma numberOfInteger_exact z : (z < 2 ^ 53)%Z -> numberOfInteger z = Finite z.
Proof.
  intros Hz. unfold numberOfInteger.
  destruct (Z.ltb_spec z (2 ^ 53)); [done|lia].
Qed.

(** Above [2^53] the number value is a multiple of the spacing of doubles at
    that magnitude and lies within half that spacing of the integer. *)
Lemma numberOfInteger_nearest z v :
  (2 ^ 53 <= z)%Z -> numberOfInteger z = Finite v ->
  (v mod 2 ^ (Z.log2 z - 52) = 0 /\ Z.abs (v - z) <= 2 ^ (Z.log2 z - 53))%Z.
Proof.
  intros Hz. unfold numberOfInteger.
  destruct (Z.ltb_spec z (2 ^ 53)) as [|_]; [lia|].
  assert (53 <= Z.log2 z)%Z as Hlog by (apply Z.log2_le_pow2; lia).
  set (e := (Z.log2 z - 52)%Z).
  assert (2 ^ e = 2 * 2 ^ (e - 1))%Z as Hpow.
  { rewrite <-Z.pow_succ_r by lia. f_equal. lia. }
  assert (0 < 2 ^ (e - 1))%Z as Hhalf by (apply Z.pow_pos_nonneg; lia).
  pose proof (Z.div_mod z (2 ^ e) ltac:(lia)) as Hdm.
  pose proof (Z.mod_pos_bound z (2 ^ e) ltac:(lia)) as Hr.
  replace (Z.log2 z - 53)%Z with (e - 1)%Z by lia.
  set (q := (z / 2 ^ e)%Z) in *. set (r := (z mod 2 ^ e)%Z) in *.
  set (q' := if (r <? 2 ^ (e - 1))%Z then q
             else if (2 ^ (e - 1) <? r)%Z then (q + 1)%Z
             else if Z.even q then q else (q + 1)%Z).
  destruct (2 ^ 1024 <=? q' * 2 ^ e)%Z; [done|]. intros [= <-].
  split; [apply Z.mod_mul; lia|].
  subst q'. destruct (Z.ltb_spec r (2 ^ (e - 1))); [lia|].
  destruct (Z.ltb_spec (2 ^ (e - 1)) r); [lia|].
  destruct (Z.even q); lia.
Qed.

End PatternFacts.

(** ** The set of session folders *)

Module FolderFacts.
Import Js Patterns JsFacts Sync PatternFacts.

Lemma elem_of_setAdd x y s : y ∈ setAdd x s <-> y = x \/ y ∈ s.
Proof.
  unfold setAdd. case_bool_decide as Hx.
  - split; [by right|]. by intros [->|?].
  - rewrite elem_of_app, list_elem_of_singleton. tauto.
Qed.

Lemma NoDup_setAdd x s : NoDup s -> NoDup (setAdd x s).
Proof.
  unfold setAdd. case_bool_decide as Hx; [done|]. intros Hs.
  apply NoDup_app. split_and!; [done| |apply NoDup_singleton].
  intros y Hy ->%list_elem_of_singleton. done.
Qed.

(** The loop of lines 22-25, started from any set. *)
Lemma NoDup_noteFolders files acc :
  NoDup acc -> NoDup (fold_left noteFolder files acc).
Proof.
  revert acc. induction files as [|name files IH]; intros acc Hacc; [done|].
  simpl. apply IH. unfold noteFolder. destruct (matchSessionFolder name); [|done].
  by apply NoDup_setAdd.
Qed.

Lemma elem_of_noteFolders files acc id :
  id ∈ fold_left noteFolder files acc <->
  id ∈ acc \/ exists name, name ∈ files /\ matchSessionFolder name = Some id.
Proof.
  revert acc. induction files as [|name files IH]; intros acc; simpl.
  - split; [by left|]. intros [?|(name & Hn & _)]; [done|]. by apply elem_of_nil in Hn.
  - rewrite IH. unfold noteFolder. split.
    + intros [Hacc|(n & Hn & Hm)].
      * destruct (matchSessionFolder name) as [id'|] eqn:Hm; [|by left].
        apply elem_of_setAdd in Hacc as [->|?]; [right|by left].
        exists name. split; [left|done].
      * right. exists n. split; [by right|done].
    + intros [Hacc|(n & Hn & Hm)].
      * left. destruct (matchSessionFolder name); [|done].
        apply elem_of_setAdd. by right.
      * apply elem_of_cons in Hn as [->|Hn].
        -- left. rewrite Hm. apply elem_of_setAdd. by left.
        -- right. by exists n.
Qed.

Lemma NoDup_sessionFolders files : NoDup (sessionFolders files).
Proof. apply (NoDup_noteFolders files []), NoDup_nil_2. Qed.

(** The folders are exactly the names [id] for which the listing holds an
    object [sessions/<id>/...]. *)
Lemma elem_of_sessionFolders files id :
  id ∈ sessionFolders files <->
  FolderName id /\ exists name, name ∈ files /\ Under id name.
Proof.
  unfold sessionFolders. rewrite (elem_of_noteFolders files []). split.
  - intros [Hnil|(name & Hn & [Hf Hu]%matchSessionFolder_spec)].
    + by apply elem_of_nil in Hnil.
    + split; [done|]. by exists name.
  - intros [Hf (name & Hn & Hu)]. right. exists name. split; [done|].
    by apply matchSessionFolder_spec.
Qed.

(** An object name that matches no folder leaves the set as it is, wherever
    it stands in the listing. *)
Lemma sessionFolders_skip l1 name l2 :
  matchSessionFolder name = None ->
  sessionFolders (l1 ++ name :: l2) = sessionFolders (l1 ++ l2).
Proof.
  intros Hm. unfold sessionFolders. rewrite !fold_left_app. simpl.
  unfold noteFolder at 2. by rewrite Hm.
Qed.

End FolderFacts.

(** ** Running the sweep *)

Module SweepFacts.
Import Js Patterns JsFacts Sync PatternFacts FolderFacts Verdicts.

Section Run.
Variable E : env.
Variable files : list string.

Lemma EntryOf_widen lo hi lo' hi' name t :
  lo' <= lo -> hi <= hi' -> EntryOf E lo hi name t -> EntryOf E lo' hi' name t.
Proof.
  intros Hlo Hhi (Hurl & Hm & Hn). split_and!; [done..|].
  intros Hno. destruct (Hn Hno) as (Hsku & j & Hj & Ht).
  split; [done|]. exists j. split; [lia|done].
Qed.

Lemma tryonOf_run name w :
  exists t k,
    tryonOf E name w = (Returned t, World (docs w) k) /\
    ticks w <= k /\ EntryOf E (ticks w) k name t.
Proof.
  unfold tryonOf.
  destruct (matchFoundation (splitPop name)) as [[s d]|] eqn:Hm.
  - eexists _, (ticks w). split; [by destruct w|]. split; [done|].
    split_and!; [done| |].
    + intros s' d' H'%matchFoundation_spec. rewrite Hm in H'. by injection H' as <- <-.
    + intros Hno%matchFoundation_None. congruence.
  - eexists _, (S (ticks w)). split; [done|]. split; [lia|].
    split_and!; [done| |].
    + intros s' d' H'%matchFoundation_spec. congruence.
    + intros _. split; [done|]. exists (ticks w). split; [lia|done].
Qed.

Lemma mapM_tryonOf_run names w :
  exists ts k,
    mapM (tryonOf E) names w = (Returned ts, World (docs w) k) /\
    ticks w <= k /\ Forall2 (EntryOf E (ticks w) k) names ts.
Proof.
  revert w. induction names as [|name names IH]; intros w.
  - exists [], (ticks w). split; [by destruct w|]. split; [done|constructor].
  - destruct (tryonOf_run name w) as (t & k1 & Ht & Hk1 & Hent).
    destruct (IH (World (docs w) k1)) as (ts & k & Hts & Hk & Hall).
    exists (t :: ts), k. cbn [mapM]. unfold bind at 1. rewrite Ht.
    unfold bind at 1. rewrite Hts. simpl in *. split; [done|]. split; [lia|].
    constructor.
    + eapply EntryOf_widen; [..|exact Hent]; lia.
    + eapply Forall2_impl; [exact Hall|]. intros n' t' H'.
      eapply EntryOf_widen; [..|exact H']; lia.
Qed.

(** The synthesis never throws, leaves the collection alone, and fills
    the record as follows. *)
Lemma synthesize_run id w :
  exists d k,
    synthesize E files id w = (Returned d, World (docs w) k) /\
    ticks w < k /\
    createdAt d = (if testAllDigits id then parseInt id
                   else Finite (clock E (ticks w))) /\
    originalImageUrl d =
      (if bool_decide ("original.jpg" ∈ map splitPop (sessionFiles files id))
       then Some (publicUrl ("sessions/" +:+ id +:+ "/original.jpg")) else None) /\
    derenderedImageUrl d =
      (if bool_decide ("derendered.jpg" ∈ map splitPop (sessionFiles files id))
       then Some (publicUrl ("sessions/" +:+ id +:+ "/derendered.jpg")) else None) /\
    Forall2 (EntryOf E (ticks w) k)
            (foundationFiles (sessionFiles files id)) (foundationTryons d).
Proof.
  unfold synthesize.
  destruct (testAllDigits id) eqn:Hdig.
  - destruct (mapM_tryonOf_run (foundationFiles (sessionFiles files id))
                (World (docs w) (S (ticks w)))) as (ts & k & Hts & Hk & Hall).
    eexists _, k. unfold bind, ret, dateNow. rewrite Hts. simpl in *.
    split; [done|]. split; [lia|]. split_and!; [done..|].
    eapply Forall2_impl; [exact Hall|]. intros n t H.
    eapply EntryOf_widen; [..|exact H]; lia.
  - destruct (mapM_tryonOf_run (foundationFiles (sessionFiles files id))
                (World (docs w) (S (S (ticks w))))) as (ts & k & Hts & Hk & Hall).
    eexists _, k. unfold bind, ret, dateNow. simpl. rewrite Hts. simpl in *.
    split; [done|]. split; [lia|]. split_and!; [done..|].
    eapply Forall2_impl; [exact Hall|]. intros n t H.
    eapply EntryOf_widen; [..|exact H]; lia.
Qed.

Lemma Tallied_failed r id e :
  Tallied r (Detail id "failed" (Some (errorText e))) (countFailed r id e).
Proof. unfold Tallied, count. simpl. split_and!; try done; lia. Qed.

Lemma Tallied_synced r id :
  Tallied r (Detail id "already_exists" None) (countSynced r id).
Proof. unfold Tallied, count. simpl. split_and!; try done; lia. Qed.

Lemma Tallied_created r id :
  Tallied r (Detail id "created" None) (countCreated r id).
Proof. unfold Tallied, count. simpl. split_and!; try done; lia. Qed.

(** One turn of the loop: it always returns, appends one entry for its
    folder, and touches no other folder's document. *)
Lemma syncSession_run r id w :
  exists dt r' w',
    syncSession E files r id w = (Returned r', w') /\
    sessionId dt = id /\
    Tallied r dt r' /\
    Settled E files (docs w !! id) (docs w' !! id) dt /\
    (forall id', id' <> id -> docs w' !! id' = docs w !! id') /\
    ticks w <= ticks w'.
Proof.
  unfold syncSession, tryCatch, bind at 1, docExists.
  destruct (getFault E id) as [e|] eqn:Hget.
  { exists (Detail id "failed" (Some (errorText e))), (countFailed r id e), w.
    split_and!; [done|done|apply Tallied_failed| |done|done].
    unfold Settled. simpl. by rewrite Hget. }
  destruct (docs w !! id) as [d0|] eqn:Hdoc.
  { exists (Detail id "already_exists" None), (countSynced r id), w.
    rewrite bool_decide_eq_true_2 by eauto.
    split_and!; [done|done|apply Tallied_synced| |done|done].
    unfold Settled. simpl. by rewrite Hget. }
  rewrite bool_decide_eq_false_2 by (intros [? ?]; congruence).
  destruct (synthesize_run id w) as (d & k & Hsyn & Hk & _).
  unfold bind at 1. rewrite Hsyn. unfold bind, docSet. simpl.
  destruct (setFault E id d) as [e|] eqn:Hset.
  - exists (Detail id "failed" (Some (errorText e))), (countFailed r id e),
           (World (docs w) k).
    split_and!; [done|done|apply Tallied_failed| |done|simpl; lia].
    unfold Settled. simpl. rewrite Hget, Hdoc.
    exists w, (World (docs w) k), d. by rewrite Hset.
  - exists (Detail id "created" None), (countCreated r id),
           (World (<[id:=d]> (docs w)) k).
    split_and!; [done|done|apply Tallied_created| | |simpl; lia].
    + unfold Settled. simpl. rewrite Hget.
      exists w, (World (docs w) k), d. by rewrite Hset, lookup_insert_eq.
    + intros id' Hne. simpl. by apply lookup_insert_ne.
Qed.

Lemma count_app st (l1 l2 : list detail) :
  count st (l1 ++ l2) = count st l1 + count st l2.
Proof. unfold count. by rewrite List.filter_app, length_app. Qed.

(** The whole loop over distinct folders: it always returns; the entries
    added are those of the folders, in order; each is settled against its
    own folder's document before and after the loop; documents of other
    identifiers are untouched. *)
Lemma forOf_syncSession_run ids r w :
  NoDup ids ->
  exists dts r' w',
    forOf (syncSession E files) r ids w = (Returned r', w') /\
    totalFolders r' = totalFolders r /\
    details r' = details r ++ dts /\
    map sessionId dts = ids /\
    alreadySynced r' = alreadySynced r + count "already_exists" dts /\
    newlyCreated r' = newlyCreated r + count "created" dts /\
    failed r' = failed r + count "failed" dts /\
    Forall (fun dt => Settled E files (docs w !! sessionId dt)
                              (docs w' !! sessionId dt) dt) dts /\
    (forall id, id ∉ ids -> docs w' !! id = docs w !! id).
Proof.
  revert r w. induction ids as [|id ids IH]; intros r w Hnd.
  { exists [], r, w. simpl. rewrite app_nil_r.
    split_and!; try done; unfold count; simpl; lia. }
  apply NoDup_cons in Hnd as [Hid Hnd].
  destruct (syncSession_run r id w)
    as (dt & r1 & w1 & Hstep & Hdt & Htal & Hset & Hother & _).
  destruct (IH r1 w1 Hnd)
    as (dts & r' & w' & Hloop & Htot & Hdet & Hids & Hsyn & Hnew & Hfail & Hall & Hrest).
  destruct Htal as (Ht1 & Ht2 & Ht3 & Ht4 & Ht5).
  exists (dt :: dts), r', w'. cbn [forOf]. unfold bind at 1. rewrite Hstep.
  split_and!.
  - done.
  - congruence.
  - by rewrite Hdet, Ht2, <-List.app_assoc.
  - simpl. by rewrite Hdt, Hids.
  - rewrite Hsyn, Ht3, (count_app _ [dt] dts). lia.
  - rewrite Hnew, Ht4, (count_app _ [dt] dts). lia.
  - rewrite Hfail, Ht5, (count_app _ [dt] dts). lia.
  - constructor.
    + rewrite Hdt. rewrite (Hrest id Hid). by rewrite <-Hdt in Hset |- *.
    + apply Forall_forall. intros dt' Hin.
      assert (sessionId dt' ∈ ids) as Hin'.
      { rewrite <-Hids. by apply list_elem_of_fmap_2. }
      rewrite Forall_forall in Hall.
      assert (sessionId dt' <> id) as Hne by (intros Heq; by rewrite Heq in Hin').
      rewrite <-(Hother (sessionId dt') Hne). by apply Hall.
  - intros id' Hid'. apply not_elem_of_cons in Hid' as [Hne Hid'].
    by rewrite (Hrest id' Hid'), (Hother id' Hne).
Qed.

End Run.

Lemma POST_letIn E b w :
  letIn E b = true ->
  POST E b w =
    tryCatch (sweep E)
      (fun e => ret (jsonStatus
                       (PostError "Internal Server Error" (Some (errorText e)))
                       500)) w.
Proof.
  unfold letIn, POST, tryCatch, bind. intros Hin.
  destruct b as [| |secret]; simpl in *; [|done|].
  - apply negb_true_iff in Hin. by rewrite Hin.
  - apply negb_true_iff in Hin. by rewrite Hin.
Qed.

Lemma Settled_status E files prior final dt :
  Settled E files prior final dt ->
  outcomeStatus dt = "already_exists" \/ outcomeStatus dt = "created" \/
  outcomeStatus dt = "failed".
Proof.
  unfold Settled. destruct (getFault E (sessionId dt)).
  - intros [-> _]. auto.
  - destruct prior.
    + intros [-> _]. auto.
    + intros (w1 & w2 & d & _ & H). destruct (setFault E (sessionId dt) d).
      * destruct H as [-> _]. auto.
      * destruct H as [-> _]. auto.
Qed.

Lemma count_partition (dts : list detail) :
  Forall (fun dt => outcomeStatus dt = "already_exists" \/
                    outcomeStatus dt = "created" \/
                    outcomeStatus dt = "failed") dts ->
  count "already_exists" dts + count "created" dts + count "failed" dts
  = length dts.
Proof.
  unfold count. induction 1 as [|dt dts Hdt _ IH]; [done|].
  simpl. destruct Hdt as [->|[->| ->]]; simpl; lia.
Qed.

Lemma count_none st (dts : list detail) :
  count st dts = 0 -> Forall (fun dt => outcomeStatus dt <> st) dts.
Proof.
  unfold count. induction dts as [|dt dts IH]; simpl; [constructor|].
  destruct (String.eqb (outcomeStatus dt) st) eqn:Heq; [done|].
  intros H. constructor; [by apply String.eqb_neq|by apply IH].
Qed.

Lemma count_all st (dts : list detail) :
  Forall (fun dt => outcomeStatus dt = st) dts -> count st dts = length dts.
Proof.
  unfold count. induction 1 as [|dt dts Hdt _ IH]; [done|].
  simpl. rewrite Hdt, String.eqb_refl. simpl. by rewrite IH.
Qed.

Lemma count_other st st' (dts : list detail) :
  st <> st' -> Forall (fun dt => outcomeStatus dt = st) dts -> count st' dts = 0.
Proof.
  unfold count. intros Hne. induction 1 as [|dt dts Hdt _ IH]; [done|].
  simpl. rewrite Hdt. apply String.eqb_neq in Hne. by rewrite Hne.
Qed.

(** The sweep of a caller who is let in, over a listing that could be read:
    a 200 answer carrying a tally whose entries are those of the folders,
    each settled on its own. *)
Lemma POST_run E b w files :
  letIn E b = true -> listing E = Returned files ->
  exists r w',
    POST E b w = (Returned (json (Tally r)), w') /\
    totalFolders r = length (sessionFolders files) /\
    map sessionId (details r) = sessionFolders files /\
    alreadySynced r = count "already_exists" (details r) /\
    newlyCreated r = count "created" (details r) /\
    failed r = count "failed" (details r) /\
    Forall (fun dt => Settled E files (docs w !! sessionId dt)
                              (docs w' !! sessionId dt) dt) (details r) /\
    (forall id, id ∉ sessionFolders files -> docs w' !! id = docs w !! id).
Proof.
  intros Hin Hls. rewrite (POST_letIn E b w Hin).
  unfold tryCatch, sweep, bind at 1, getFiles. rewrite Hls.
  destruct (forOf_syncSession_run E files (sessionFolders files)
              (Results (length (sessionFolders files)) 0 0 0 []) w
              (NoDup_sessionFolders files))
    as (dts & r & w' & Hloop & Htot & Hdet & Hids & Hs & Hn & Hf & Hall & Hrest).
  exists r, w'. unfold bind. rewrite Hloop. simpl in *. subst dts.
  split_and!; done.
Qed.

Lemma Settled_keeps E files d final dt :
  Settled E files (Some d) final dt -> final = Some d.
Proof.
  unfold Settled. destruct (getFault E (sessionId dt)); by intros [_ ->].
Qed.

Lemma Settled_landed E files prior final dt :
  Settled E files prior final dt -> outcomeStatus dt <> "failed" -> is_Some final.
Proof.
  unfold Settled. destruct (getFault E (sessionId dt)).
  - by intros [-> _].
  - destruct prior.
    + intros [_ ->] _. eauto.
    + intros (w1 & w2 & d & _ & H). destruct (setFault E (sessionId dt) d).
      * by destruct H as [-> _].
      * destruct H as [_ ->]. eauto.
Qed.

(** *** The dry run *)

(** With every read answering, the dry run's loop returns, counts every
    folder once and changes nothing. *)
Lemma forOf_checkSession_quiet E ids r w :
  (forall id, id ∈ ids -> getFault E id = None) ->
  exists r',
    forOf (checkSession E) r ids w = (Returned r', w) /\
    totalFoldersSeen r' = totalFoldersSeen r /\
    inFirestore r' + missingFromFirestore r'
    = inFirestore r + missingFromFirestore r + length ids.
Proof.
  revert r. induction ids as [|id ids IH]; intros r Hq.
  { exists r. simpl. split_and!; [done|done|lia]. }
  cbn [forOf]. unfold bind at 1, checkSession, bind at 1, docExists.
  rewrite (Hq id) by left.
  destruct (bool_decide (is_Some (docs w !! id))); simpl;
    match goal with
    | |- context [forOf _ ?r1 ids w] =>
        destruct (IH r1) as (r' & Hrun & Htot & Hsum);
          [intros id' Hin; apply Hq; by right|]
    end;
    exists r'; simpl in *; (split_and!; [done|done|lia]).
Qed.

(** With every read answering, the dry run answers 200 with a report. *)
Lemma dry_run_reports E w files :
  listing E = Returned files ->
  (forall id, id ∈ sessionFolders files -> getFault E id = None) ->
  exists r,
    GET E w = (Returned (Response 200 (Report r)), w) /\
    totalFoldersSeen r = length (sessionFolders files) /\
    inFirestore r + missingFromFirestore r = length (sessionFolders files).
Proof.
  intros Hls Hq.
  destruct (forOf_checkSession_quiet E (sessionFolders files)
              (StatusReport (length (sessionFolders files)) 0 0 []) w Hq)
    as (r & Hrun & Htot & Hsum).
  exists r. unfold GET, tryCatch, bind at 1, getFiles. rewrite Hls.
  unfold bind. rewrite Hrun. simpl in *. split_and!; [done|done|lia].
Qed.

(** A read that throws ends the dry run's loop: the first such throw leaves
    the loop, with nothing returned. *)
Lemma forOf_checkSession_throws E ids r w id :
  id ∈ ids -> is_Some (getFault E id) ->
  exists id' e,
    id' ∈ ids /\ getFault E id' = Some e /\
    forOf (checkSession E) r ids w = (Threw e, w).
Proof.
  revert r. induction ids as [|hd ids IH]; intros r Hin Hfault.
  { by apply elem_of_nil in Hin. }
  cbn [forOf]. unfold bind at 1, checkSession, bind at 1, docExists.
  destruct (getFault E hd) as [e|] eqn:Hhd.
  { exists hd, e. split; [left|done]. }
  assert (id ∈ ids) as Hin'.
  { apply elem_of_cons in Hin as [->|?]; [|done].
    rewrite Hhd in Hfault. by destruct Hfault. }
  destruct (bool_decide (is_Some (docs w !! hd))); simpl;
    match goal with
    | |- context [forOf _ ?r1 ids w] =>
        destruct (IH r1 Hin' Hfault) as (id' & e & Hid' & He & Hrun)
    end;
    exists id', e; (split; [by right|done]).
Qed.

(** *** Changing the listing *)

Lemma synthesize_ext E files files' id w :
  sessionFiles files id = sessionFiles files' id ->
  synthesize E files id w = synthesize E files' id w.
Proof. unfold synthesize. by intros ->. Qed.

Lemma syncSession_ext E files files' r id w :
  sessionFiles files id = sessionFiles files' id ->
  syncSession E files r id w = syncSession E files' r id w.
Proof.
  intros Heq. unfold syncSession, tryCatch, bind.
  destruct (docExists E id w) as [[[|]|e] w1]; [done| |done].
  by rewrite (synthesize_ext E files files' id w1 Heq).
Qed.

Lemma forOf_ext {S A R} (f g : R -> A -> M S R) r xs s :
  (forall r x s, f r x s = g r x s) -> forOf f r xs s = forOf g r xs s.
Proof.
  intros Hfg. revert r s. induction xs as [|x xs IH]; intros r s; [done|].
  cbn [forOf]. unfold bind. rewrite Hfg.
  destruct (g r x s) as [[r1|e] s1]; [apply IH|done].
Qed.

(** An object [sessions/<x>] with no further separator matches no folder
    and lies under no folder. *)
Lemma stray_matches_nothing x :
  forallb_str notSlash x = true -> matchSessionFolder ("sessions/" +:+ x) = None.
Proof.
  intros Hx. destruct (matchSessionFolder ("sessions/" +:+ x)) as [id|] eqn:Hm; [|done].
  apply matchSessionFolder_spec in Hm as [_ [rest Hrest]].
  apply (inj (String.app "sessions/")) in Hrest. subst x.
  rewrite !forallb_str_app in Hx. simpl in Hx.
  by rewrite andb_false_r in Hx.
Qed.

Lemma stray_under_nothing x id :
  forallb_str notSlash x = true ->
  startsWith ("sessions/" +:+ x) ("sessions/" +:+ id +:+ "/") = false.
Proof.
  intros Hx. apply not_true_is_false. intros [rest Hrest]%startsWith_spec.
  rewrite !append_assoc in Hrest.
  apply (inj (String.app "sessions/")) in Hrest. subst x.
  rewrite !forallb_str_app in Hx. simpl in Hx.
  by rewrite andb_false_r in Hx.
Qed.

Lemma sessionFiles_skip l1 x l2 id :
  forallb_str notSlash x = true ->
  sessionFiles (l1 ++ ("sessions/" +:+ x) :: l2) id = sessionFiles (l1 ++ l2) id.
Proof.
  intros Hx. unfold sessionFiles. rewrite !List.filter_app. cbn [List.filter].
  by rewrite (stray_under_nothing x id Hx).
Qed.

End SweepFacts.

(* ===================================================================== *)
(** * Part III: the statements of the specification                       *)
(* ===================================================================== *)

Import Js Patterns Verdicts Sync JsFacts PatternFacts FolderFacts SweepFacts.

(** ** The write-mode sweep *)

(** C1.  Whatever the listing, when its objects under [sessions/] span the
    distinct folder names [ids] (a folder name being the non-empty first path
    segment after the prefix), the sweep of a caller who is let in answers 200
    with a tally in which [totalFolders] is the number of those names, the
    three counters add up to that number, and the detail entries are one per
    name. *)
Theorem sweep_tally_counts_folders E b w files ids :
  letIn E b = true ->
  listing E = Returned files ->
  NoDup ids ->
  (forall id, id ∈ ids <->
              FolderName id /\ exists name, name ∈ files /\ Under id name) ->
  exists r w',
    POST E b w = (Returned (Response 200 (Tally r)), w') /\
    totalFolders r = length ids /\
    alreadySynced r + newlyCreated r + failed r = length ids /\
    map sessionId (details r) ≡ₚ ids.
Proof.
  intros Hin Hls Hnd Hids.
  destruct (POST_run E b w files Hin Hls)
    as (r & w' & Hpost & Htot & Hdet & Hs & Hn & Hf & Hall & _).
  assert (sessionFolders files ≡ₚ ids) as Hperm.
  { apply NoDup_Permutation; [apply NoDup_sessionFolders|done|].
    intros id. by rewrite elem_of_sessionFolders, Hids. }
  exists r, w'. split_and!.
  - done.
  - by rewrite Htot, Hperm.
  - rewrite Hs, Hn, Hf, count_partition.
    + by rewrite <-Hperm, <-Hdet, length_map.
    + eapply Forall_impl; [exact Hall|]. intros dt. apply Settled_status.
  - by rewrite Hdet.
Qed.

Lemma sweep_tally_counts_folders_witness :
  exists r w',
    POST Scenario.healthy Unparseable Scenario.emptyWorld
    = (Returned (Response 200 (Tally r)), w') /\
    totalFolders r = 2 /\
    alreadySynced r + newlyCreated r + failed r = 2 /\
    map sessionId (details r) ≡ₚ ["s1"; "1700000000000"].
Proof.
  apply (sweep_tally_counts_folders Scenario.healthy Unparseable Scenario.emptyWorld
           Scenario.listed ["s1"; "1700000000000"]).
  - reflexivity.
  - reflexivity.
  - apply (NoDup_sessionFolders Scenario.listed).
  - intros id. apply (elem_of_sessionFolders Scenario.listed id).
Defined.

(** C6.  A document-store call that throws while one folder is processed costs
    that folder alone: the sweep still answers 200 with one entry per folder;
    [failed] counts exactly the entries with status ['failed']; every entry
    is settled by its own folder's faults and prior document (see
    [Settled]), so a folder whose read throws gets ['failed'] with the
    message, and a folder whose own calls do not throw is processed to
    ['already_exists'] or ['created'] whatever happened to the others. *)
Theorem sweep_isolates_failures E b w files :
  letIn E b = true ->
  listing E = Returned files ->
  exists r w',
    POST E b w = (Returned (Response 200 (Tally r)), w') /\
    map sessionId (details r) = sessionFolders files /\
    failed r = count "failed" (details r) /\
    alreadySynced r = count "already_exists" (details r) /\
    newlyCreated r = count "created" (details r) /\
    Forall (fun dt => Settled E files (docs w !! sessionId dt)
                              (docs w' !! sessionId dt) dt) (details r) /\
    (forall id e,
        id ∈ sessionFolders files -> getFault E id = Some e ->
        Detail id "failed" (Some (errorText e)) ∈ details r) /\
    (forall id,
        id ∈ sessionFolders files -> getFault E id = None ->
        (forall d, setFault E id d = None) ->
        is_Some (docs w' !! id) /\
        (Detail id "already_exists" None ∈ details r \/
         Detail id "created" None ∈ details r)).
Proof.
  intros Hin Hls.
  destruct (POST_run E b w files Hin Hls)
    as (r & w' & Hpost & Htot & Hdet & Hs & Hn & Hf & Hall & _).
  exists r, w'. split_and!; try done.
  - intros id e Hid Hget. rewrite <-Hdet in Hid.
    apply list_elem_of_fmap in Hid as (dt & -> & Hdt).
    rewrite Forall_forall in Hall. specialize (Hall dt Hdt).
    unfold Settled in Hall. rewrite Hget in Hall. destruct Hall as [Heq _].
    by rewrite <-Heq.
  - intros id Hid Hget Hset. rewrite <-Hdet in Hid.
    apply list_elem_of_fmap in Hid as (dt & -> & Hdt).
    rewrite Forall_forall in Hall. specialize (Hall dt Hdt).
    unfold Settled in Hall. rewrite Hget in Hall.
    destruct (docs w !! sessionId dt) as [d0|].
    + destruct Hall as [Heq ->]. split; [eauto|]. left. by rewrite <-Heq.
    + destruct Hall as (w1 & w2 & d & _ & Hd). rewrite Hset in Hd.
      destruct Hd as [Heq ->]. split; [eauto|]. right. by rewrite <-Heq.
Qed.

Lemma sweep_isolates_failures_witness :
  exists r w',
    POST Scenario.readFails Unparseable Scenario.emptyWorld
    = (Returned (Response 200 (Tally r)), w') /\
    failed r = 1 /\ newlyCreated r = 1 /\
    details r = [Detail "s1" "failed" (Some "read refused");
                 Detail "1700000000000" "created" None].
Proof.
  destruct (sweep_isolates_failures Scenario.readFails Unparseable
              Scenario.emptyWorld Scenario.listed eq_refl eq_refl)
    as (r & w' & Hpost & _).
  exists r, w'. split; [exact Hpost|].
  vm_compute in Hpost. injection Hpost as <- _. by vm_compute.
Defined.

(** C2, as stated, fails when a write of the first run throws: with the store
    refusing the write to [sessions/s1] in both runs and nothing changed in
    between, the second run over the two folders reports one folder as
    already synced, not two. *)
Lemma second_run_after_failed_write :
  exists r1 w1 r2 w2,
    POST Scenario.writeFails Unparseable Scenario.emptyWorld
    = (Returned (Response 200 (Tally r1)), w1) /\
    POST Scenario.writeFails Unparseable w1
    = (Returned (Response 200 (Tally r2)), w2) /\
    totalFolders r2 = 2 /\
    alreadySynced r2 = 1 /\
    ~ (newlyCreated r2 = 0 /\ alreadySynced r2 = totalFolders r2).
Proof.
  destruct (POST Scenario.writeFails Unparseable Scenario.emptyWorld)
    as [o1 w1] eqn:H1.
  destruct (POST Scenario.writeFails Unparseable w1) as [o2 w2] eqn:H2.
  vm_compute in H1. injection H1 as <- <-.
  vm_compute in H2. injection H2 as <- <-.
  eexists _, _, _, _. split; [reflexivity|]. split; [reflexivity|].
  simpl. split_and!; [done|done|]. intros [_ ?]. done.
Qed.

(** C2, amended.  The sweep never overwrites a document that is there.  When
    a run reported no failure, a second run over the same listing, with no
    change to the document store in between and every read answering,
    reports no new record and every folder as already synced, and leaves the
    collection as it was. *)
Theorem sweep_twice E1 E2 b1 b2 w files r1 w1 :
  letIn E1 b1 = true ->
  listing E1 = Returned files ->
  POST E1 b1 w = (Returned (Response 200 (Tally r1)), w1) ->
  (forall id d, docs w !! id = Some d -> docs w1 !! id = Some d) /\
  (failed r1 = 0 ->
   letIn E2 b2 = true ->
   listing E2 = Returned files ->
   (forall id, id ∈ sessionFolders files -> getFault E2 id = None) ->
   exists r2 w2,
     POST E2 b2 w1 = (Returned (Response 200 (Tally r2)), w2) /\
     newlyCreated r2 = 0 /\
     alreadySynced r2 = length (sessionFolders files) /\
     totalFolders r2 = length (sessionFolders files) /\
     failed r2 = 0 /\
     docs w2 = docs w1).
Proof.
  intros Hin1 Hls1 Hrun1.
  destruct (POST_run E1 b1 w files Hin1 Hls1)
    as (r & w' & Hpost & Htot & Hdet & Hs & Hn & Hf & Hall & Hrest).
  rewrite Hrun1 in Hpost. injection Hpost as <- <-.
  rewrite Forall_forall in Hall.
  assert (forall id, id ∈ sessionFolders files ->
            exists dt, dt ∈ details r1 /\ sessionId dt = id) as Hentry.
  { intros id Hid. rewrite <-Hdet in Hid.
    apply list_elem_of_fmap in Hid as (dt & -> & Hdt). by exists dt. }
  split.
  - intros id d Hd. destruct (decide (id ∈ sessionFolders files)) as [Hid|Hid].
    + destruct (Hentry id Hid) as (dt & Hdt & <-).
      specialize (Hall dt Hdt). rewrite Hd in Hall.
      by apply Settled_keeps in Hall.
    + by rewrite (Hrest id Hid).
  - intros Hclean Hin2 Hls2 Hreads.
    assert (forall id, id ∈ sessionFolders files -> is_Some (docs w1 !! id)) as Hthere.
    { intros id Hid. destruct (Hentry id Hid) as (dt & Hdt & <-).
      apply (Settled_landed _ _ _ _ _ (Hall dt Hdt)).
      rewrite Hf in Hclean. apply count_none in Hclean.
      rewrite Forall_forall in Hclean. by apply Hclean. }
    destruct (POST_run E2 b2 w1 files Hin2 Hls2)
      as (r2 & w2 & Hpost2 & Htot2 & Hdet2 & Hs2 & Hn2 & Hf2 & Hall2 & Hrest2).
    rewrite Forall_forall in Hall2.
    assert (Forall (fun dt => outcomeStatus dt = "already_exists") (details r2)) as Hsynced.
    { apply Forall_forall. intros dt Hdt.
      assert (sessionId dt ∈ sessionFolders files) as Hid.
      { rewrite <-Hdet2. by apply list_elem_of_fmap_2. }
      specialize (Hall2 dt Hdt). unfold Settled in Hall2.
      rewrite (Hreads _ Hid) in Hall2.
      destruct (Hthere _ Hid) as [d Hd]. rewrite Hd in Hall2.
      by destruct Hall2 as [-> _]. }
    exists r2, w2. split_and!.
    + done.
    + rewrite Hn2. by apply (count_other "already_exists").
    + by rewrite Hs2, (count_all _ _ Hsynced), <-Hdet2, length_map.
    + done.
    + rewrite Hf2. by apply (count_other "already_exists").
    + apply map_eq. intros id.
      destruct (decide (id ∈ sessionFolders files)) as [Hid|Hid];
        [|by apply Hrest2].
      destruct (Hthere id Hid) as [d Hd]. rewrite Hd.
      assert (id ∈ map sessionId (details r2)) as Hid2 by by rewrite Hdet2.
      apply list_elem_of_fmap in Hid2 as (dt & -> & Hdt).
      specialize (Hall2 dt Hdt). rewrite Hd in Hall2.
      by apply Settled_keeps in Hall2.
Qed.

Lemma sweep_twice_witness :
  exists r1 w1 r2 w2,
    POST Scenario.healthy Unparseable Scenario.emptyWorld
    = (Returned (Response 200 (Tally r1)), w1) /\
    newlyCreated r1 = 2 /\
    POST Scenario.healthy Unparseable w1
    = (Returned (Response 200 (Tally r2)), w2) /\
    newlyCreated r2 = 0 /\ alreadySynced r2 = 2 /\ docs w2 = docs w1.
Proof.
  destruct (POST Scenario.healthy Unparseable Scenario.emptyWorld)
    as [o1 w1] eqn:H1.
  assert (exists r1, o1 = Returned (Response 200 (Tally r1)) /\
                     newlyCreated r1 = 2 /\ failed r1 = 0) as (r1 & -> & Hn1 & Hf1).
  { vm_compute in H1. injection H1 as <- _. eexists. by split_and!. }
  destruct (sweep_twice Scenario.healthy Scenario.healthy Unparseable Unparseable
              Scenario.emptyWorld Scenario.listed r1 w1 eq_refl eq_refl H1)
    as [_ Hsecond].
  destruct (Hsecond Hf1 eq_refl eq_refl (fun _ _ => eq_refl))
    as (r2 & w2 & Hpost2 & Hn2 & Hs2 & _ & _ & Hdocs).
  exists r1, w1, r2, w2. by split_and!.
Defined.

(** ** The dry run *)

(** C9.  The dry run has no isolation of its own: as soon as the read of one
    folder's document throws, the request answers 500 with the generic error
    body (carrying the message of the read that threw) instead of a report;
    no count of any folder is returned, and nothing is written. *)
Theorem dry_run_aborts_on_failed_read E w files id :
  listing E = Returned files ->
  id ∈ sessionFolders files ->
  is_Some (getFault E id) ->
  exists id' e,
    id' ∈ sessionFolders files /\ getFault E id' = Some e /\
    GET E w = (Returned (Response 500
                           (GetError "Internal Server Error" (Some (errorText e)))),
               w).
Proof.
  intros Hls Hid Hfault.
  destruct (forOf_checkSession_throws E (sessionFolders files)
              (StatusReport (length (sessionFolders files)) 0 0 []) w id Hid Hfault)
    as (id' & e & Hid' & He & Hrun).
  exists id', e. split; [done|]. split; [done|].
  unfold GET, tryCatch, bind at 1, getFiles. rewrite Hls.
  unfold bind. by rewrite Hrun.
Qed.

Lemma dry_run_aborts_on_failed_read_witness :
  exists id' e,
    id' ∈ sessionFolders Scenario.listed /\
    getFault Scenario.readFails id' = Some e /\
    GET Scenario.readFails Scenario.emptyWorld
    = (Returned (Response 500
                   (GetError "Internal Server Error" (Some (errorText e)))),
       Scenario.emptyWorld).
Proof.
  apply (dry_run_aborts_on_failed_read Scenario.readFails Scenario.emptyWorld
           Scenario.listed "s1").
  - reflexivity.
  - vm_compute. left.
  - vm_compute. eauto.
Defined.

(** ** Objects outside any folder *)

(** C10.  An object named [sessions/<x>] with no further separator matches
    no folder and lies under no folder's path; taking it out of the listing
    changes neither the answer of the sweep nor the documents it writes, nor
    the answer of the dry run. *)
Theorem stray_object_is_ignored E b w l1 l2 x :
  forallb_str notSlash x = true ->
  listing E = Returned (l1 ++ ("sessions/" +:+ x) :: l2) ->
  matchSessionFolder ("sessions/" +:+ x) = None /\
  sessionFolders (l1 ++ ("sessions/" +:+ x) :: l2) = sessionFolders (l1 ++ l2) /\
  (forall id, sessionFiles (l1 ++ ("sessions/" +:+ x) :: l2) id
              = sessionFiles (l1 ++ l2) id) /\
  POST E b w = POST (withListing E (l1 ++ l2)) b w /\
  GET E w = GET (withListing E (l1 ++ l2)) w.
Proof.
  intros Hx Hls.
  pose proof (stray_matches_nothing x Hx) as Hnone.
  pose proof (sessionFolders_skip l1 _ l2 Hnone) as Hfolders.
  split_and!; [done|done| | |].
  - intros id. by apply sessionFiles_skip.
  - assert (forall w0, sweep E w0 = sweep (withListing E (l1 ++ l2)) w0) as Hsweep.
    { intros w0. unfold sweep, bind, getFiles. rewrite Hls. simpl listing. cbv iota.
      rewrite Hfolders.
      rewrite (forOf_ext (syncSession E (l1 ++ ("sessions/" +:+ x) :: l2))
                         (syncSession (withListing E (l1 ++ l2)) (l1 ++ l2))).
      - done.
      - intros r id s. apply (syncSession_ext E). by apply sessionFiles_skip. }
    unfold POST, tryCatch, bind.
    destruct (readSecret b w) as [[secret|e] w0]; [|done].
    change (refused (withListing E (l1 ++ l2)) secret) with (refused E secret).
    destruct (refused E secret); [done|]. by rewrite Hsweep.
  - unfold GET, tryCatch, bind, getFiles. rewrite Hls. simpl listing.
    cbv iota. by rewrite Hfolders.
Qed.

Lemma stray_object_is_ignored_witness :
  matchSessionFolder "sessions/readme.txt" = None /\
  POST Scenario.healthy Unparseable Scenario.emptyWorld
  = POST (withListing Scenario.healthy
            [ "sessions/s1/original.jpg";
              "sessions/1700000000000/foundation-SKU42-1690000000000.jpg";
              "sessions/s1/foundation-badname.jpg" ])
         Unparseable Scenario.emptyWorld /\
  GET Scenario.healthy Scenario.emptyWorld
  = GET (withListing Scenario.healthy
           [ "sessions/s1/original.jpg";
             "sessions/1700000000000/foundation-SKU42-1690000000000.jpg";
             "sessions/s1/foundation-badname.jpg" ])
        Scenario.emptyWorld.
Proof.
  destruct (stray_object_is_ignored Scenario.healthy Unparseable Scenario.emptyWorld
              [ "sessions/s1/original.jpg";
                "sessions/1700000000000/foundation-SKU42-1690000000000.jpg";
                "sessions/s1/foundation-badname.jpg" ]
              [] "readme.txt" eq_refl eq_refl)
    as (Hm & _ & _ & Hpost & Hget).
  split_and!; [exact Hm|exact Hpost|exact Hget].
Defined.

(** ** The synthesised record *)

(** C3, as stated, fails for a folder named by digits whose integer value is
    not a double: the folder [9007199254740993] is all digits, and the record
    the sweep writes for it has [createdAt] 9007199254740992. *)
Lemma createdAt_of_long_digit_name :
  AllDigits "9007199254740993" /\
  decimalValue "9007199254740993" = 9007199254740993%Z /\
  exists d,
    docs (POST Scenario.longName Unparseable Scenario.emptyWorld).2
      !! "9007199254740993" = Some d /\
    createdAt d = Finite 9007199254740992 /\
    createdAt d <> Finite (decimalValue "9007199254740993").
Proof.
  split; [by split|]. split; [reflexivity|].
  eexists. split; [by vm_compute|]. split; [reflexivity|]. by vm_compute.
Qed.

(** C3, amended.  The synthesis always yields a record.  When the identifier
    consists entirely of digits, [createdAt] is the number value of its
    decimal reading, that is the integer rounded to the nearest double, and
    so the integer itself whenever it is below [2^53]; otherwise [createdAt]
    is the clock reading taken at that point of the sync, whatever the
    identifier. *)
Theorem createdAt_rule E files id w :
  exists d w',
    synthesize E files id w = (Returned d, w') /\
    (AllDigits id ->
     createdAt d = numberOfInteger (decimalValue id) /\
     ((decimalValue id < 2 ^ 53)%Z -> createdAt d = Finite (decimalValue id))) /\
    (~ AllDigits id -> createdAt d = Finite (clock E (ticks w))).
Proof.
  destruct (synthesize_run E files id w) as (d & k & Hrun & _ & Hcreated & _).
  exists d, (World (docs w) k). split; [done|]. split.
  - intros Hdig. pose proof Hdig as Ht%testAllDigits_spec.
    rewrite Ht, (parseInt_digits id Hdig) in Hcreated. split; [done|].
    intros Hsmall. by rewrite Hcreated, numberOfInteger_exact.
  - intros Hnot%testAllDigits_false. by rewrite Hnot in Hcreated.
Qed.

Lemma createdAt_rule_witness :
  (exists d w',
      synthesize Scenario.healthy Scenario.listed "1700000000000" Scenario.emptyWorld
      = (Returned d, w') /\
      createdAt d = Finite 1700000000000) /\
  (exists d w',
      synthesize Scenario.healthy Scenario.listed "abc123" Scenario.emptyWorld
      = (Returned d, w') /\
      createdAt d = Finite (Scenario.ticking 0)).
Proof.
  split.
  - destruct (createdAt_rule Scenario.healthy Scenario.listed "1700000000000"
                Scenario.emptyWorld) as (d & w' & Hrun & Hdig & _).
    exists d, w'. split; [exact Hrun|].
    assert (AllDigits "1700000000000") as Hall by by split.
    destruct (Hdig Hall) as [_ Hexact]. apply Hexact. by vm_compute.
  - destruct (createdAt_rule Scenario.healthy Scenario.listed "abc123"
                Scenario.emptyWorld) as (d & w' & Hrun & _ & Hnot).
    exists d, w'. split; [exact Hrun|]. apply Hnot.
    intros [_ Hall]. by vm_compute in Hall.
Defined.

(** The rule the code follows for the two image URLs: [originalImageUrl] is
    set exactly when some object under the folder's path, at any depth, has
    [original.jpg] as its last path segment (likewise [derendered.jpg]). *)
Lemma image_url_rule E files id w :
  exists d w',
    synthesize E files id w = (Returned d, w') /\
    (is_Some (originalImageUrl d) <->
     exists name, name ∈ files /\ Under id name /\ splitPop name = "original.jpg") /\
    (is_Some (derenderedImageUrl d) <->
     exists name, name ∈ files /\ Under id name /\ splitPop name = "derendered.jpg").
Proof.
  destruct (synthesize_run E files id w) as (d & k & Hrun & _ & _ & Ho & Hd & _).
  exists d, (World (docs w) k). split; [done|].
  assert (forall leaf,
            leaf ∈ map splitPop (sessionFiles files id) <->
            exists name, name ∈ files /\ Under id name /\ splitPop name = leaf) as Hin.
  { intros leaf. rewrite list_elem_of_fmap. unfold sessionFiles. split.
    - intros (name & -> & Hname). exists name.
      apply list_elem_of_In, filter_In in Hname as [Hname Hpre].
      apply startsWith_spec in Hpre as [rest Hrest].
      split; [by apply list_elem_of_In|]. split; [|done].
      exists rest. by rewrite Hrest, !append_assoc.
    - intros (name & Hname & [rest Hrest] & Hleaf). exists name. split; [done|].
      apply list_elem_of_In, filter_In. split; [by apply list_elem_of_In|].
      apply startsWith_spec. exists rest. by rewrite Hrest, !append_assoc. }
  split.
  - rewrite Ho, <-Hin. clear Ho Hd. case_bool_decide as Hleaf.
    + split; [by intros _|intros _; by eexists].
    + split; [intros [? ?]; congruence|done].
  - rewrite Hd, <-Hin. clear Ho Hd. case_bool_decide as Hleaf.
    + split; [by intros _|intros _; by eexists].
    + split; [intros [? ?]; congruence|done].
Qed.

(** An [original.jpg] directly in the folder does set the URL. *)
Lemma direct_original_sets_url E files id w :
  ("sessions/" +:+ id +:+ "/original.jpg") ∈ files ->
  exists d w',
    synthesize E files id w = (Returned d, w') /\
    originalImageUrl d = Some (publicUrl ("sessions/" +:+ id +:+ "/original.jpg")).
Proof.
  intros Hin.
  destruct (synthesize_run E files id w) as (d & k & Hrun & _ & _ & Ho & _).
  exists d, (World (docs w) k). split; [done|].
  rewrite Ho, bool_decide_eq_true_2; [done|].
  apply list_elem_of_fmap. exists ("sessions/" +:+ id +:+ "/original.jpg").
  split.
  - change ("sessions/" +:+ id +:+ "/original.jpg")
      with ("sessions/" +:+ id +:+ "/" +:+ "original.jpg").
    rewrite <-append_assoc.
    by rewrite (splitPop_after_slash ("sessions/" +:+ id) "original.jpg").
  - unfold sessionFiles. apply list_elem_of_In, filter_In.
    split; [by apply list_elem_of_In|].
    apply startsWith_spec. exists "original.jpg". by rewrite !append_assoc.
Qed.

(** C4 at the failing input: the listing holds [sessions/s1/sub/original.jpg]
    and nothing else, so no [original.jpg] lies directly in the folder; the
    record written for [s1] nevertheless points at
    [sessions/s1/original.jpg]. *)
Lemma nested_original_sets_url :
  (forall name, name ∈ ["sessions/s1/sub/original.jpg"] ->
                ~ DirectlyUnder "s1" "original.jpg" name) /\
  exists d,
    docs (POST Scenario.nested Unparseable Scenario.emptyWorld).2 !! "s1" = Some d /\
    originalImageUrl d = Some (publicUrl "sessions/s1/original.jpg").
Proof.
  split.
  - intros name ->%list_elem_of_singleton. by unfold DirectlyUnder.
  - eexists. split; [by vm_compute|]. reflexivity.
Qed.

(** *** The last path segment *)

Module SegmentFacts.
Import Segments.

Lemma split_last s :
  exists leaf,
    last (split "/" s) = Some leaf /\
    forallb_str notSlash leaf = true /\
    ((split "/" s = [leaf] /\ s = leaf) \/
     (exists seg segs dir,
         split "/" s = seg :: segs /\ segs <> [] /\ s = dir +:+ "/" +:+ leaf)).
Proof.
  induction s as [|c s (leaf & Hlast & Hleaf & Hshape)].
  { exists "". split_and!; [done|done|by left]. }
  cbn [split]. destruct (Ascii.eqb c "/") eqn:Hc.
  - apply Ascii.eqb_eq in Hc as ->. exists leaf.
    pose proof (split_nonempty "/" s) as Hne.
    split_and!; [|done|].
    + destruct (split "/" s) as [|seg segs]; [done|]. by rewrite last_cons_cons.
    + right. exists "", (split "/" s).
      destruct Hshape as [[_ ->]|(seg & segs & dir & _ & _ & ->)].
      * by exists "".
      * by exists (String "/" dir).
  - destruct Hshape as [[Hone ->]|(seg & segs & dir & Hsplit & Hsegs & ->)].
    + rewrite Hone. exists (String c leaf). split_and!; [done| |by left].
      cbn [forallb_str]. rewrite Hleaf. unfold notSlash, isSlash. by rewrite Hc.
    + rewrite Hsplit in *. exists leaf. split_and!; [|done|].
      * destruct segs as [|seg' segs]; [done|]. by rewrite last_cons_cons in *.
      * right. exists (String c seg), segs, (String c dir). by split_and!.
Qed.

(** [split('/').pop()] is the last path segment, and nothing else is. *)
Lemma splitPop_spec name leaf : splitPop name = leaf <-> LastSegment name leaf.
Proof.
  unfold LastSegment. split.
  - intros <-. unfold splitPop.
    destruct (split_last name) as (leaf & -> & Hleaf & Hshape). simpl.
    split; [done|].
    destruct Hshape as [[_ ->]|(seg & segs & dir & _ & _ & ->)]; [by left|].
    right. by exists dir.
  - intros [Hleaf [->|[dir ->]]].
    + by apply splitPop_leaf.
    + rewrite splitPop_after_slash. by apply splitPop_leaf.
Qed.

Lemma FoundationMatch_digits leaf s digits :
  FoundationMatch leaf s digits -> AllDigits digits.
Proof.
  induction 1 as [? ? ? (post & _ & _ & _ & Hdig)|]; done.
Qed.

Lemma EntryOf_EntryFor E lo hi name t :
  EntryOf E lo hi name t -> EntryFor E lo hi name t.
Proof.
  intros (Hurl & Hmatch & Hnone). split; [done|].
  exists (splitPop name). split; [by apply splitPop_spec|]. split_and!.
  - destruct (matchFoundation (splitPop name)) as [[s digits]|] eqn:Hm.
    + left. exists s, digits. by apply matchFoundation_spec.
    + right. by apply matchFoundation_None.
  - intros s digits Hfm. destruct (Hmatch s digits Hfm) as [Hsku Hts].
    split; [done|]. rewrite Hts. apply parseInt_digits.
    by apply (FoundationMatch_digits _ _ _ Hfm).
  - done.
Qed.

End SegmentFacts.

Import Segments SegmentFacts.

(** C5, as stated, fails for a file whose name holds the pattern without
    being of that form: [xfoundation-A-1.jpg] is not
    [foundation-<sku>-<digits>.jpg] for any sku and digits, and the entry the
    sweep writes for it carries the sku [A] and the timestamp 1, not
    ['unknown'] and the time of the sync. *)
Lemma unanchored_pattern_is_parsed :
  LastSegment "sessions/s1/xfoundation-A-1.jpg" "xfoundation-A-1.jpg" /\
  (forall s digits,
      "xfoundation-A-1.jpg" <> "foundation-" +:+ s +:+ "-" +:+ digits +:+ ".jpg") /\
  exists d,
    docs (POST Cases.looseName Unparseable Scenario.emptyWorld).2 !! "s1" = Some d /\
    foundationTryons d
    = [Tryon "A" (Finite 1) (publicUrl "sessions/s1/xfoundation-A-1.jpg")].
Proof.
  split; [split; [done|right; by exists "sessions/s1"]|].
  split; [intros s digits; discriminate|].
  eexists. split; [by vm_compute|]. reflexivity.
Qed.

(** C5, amended.  The synthesis always yields a record, whatever the file
    names.  Its [foundationTryons] holds exactly one entry, in listing order,
    for every object under the folder's path whose name contains
    [foundation-] and ends in [.jpg].  Each entry points at its object and is
    decided by the object's last path segment: when the pattern
    [foundation-<sku>-<digits>.jpg] (a non-empty run of non-hyphen
    characters, a non-empty run of digits) occurs anywhere in it, the entry
    carries the sku of the leftmost occurrence and the number value of its
    digits (the integer rounded to the nearest double), in particular those
    of a file name that is exactly of that form; when the pattern occurs
    nowhere in it, the entry carries ['unknown'] and a clock reading taken
    during this synthesis.  With the folder's read and write answering, the
    folder is reported ['created'] whatever its file names are. *)
Theorem foundation_entries E files id w :
  exists d w' names,
    synthesize E files id w = (Returned d, w') /\
    names = foundationFiles (sessionFiles files id) /\
    (forall name,
        name ∈ names <->
        name ∈ files /\ Under id name /\
        (exists a b, name = a +:+ "foundation-" +:+ b) /\
        (exists a, name = a +:+ ".jpg")) /\
    Forall2 (EntryFor E (ticks w) (ticks w')) names (foundationTryons d) /\
    (forall name t s digits,
        (name, t) ∈ zip names (foundationTryons d) ->
        s <> "" -> forallb_str notHyphen s = true -> AllDigits digits ->
        LastSegment name ("foundation-" +:+ s +:+ "-" +:+ digits +:+ ".jpg") ->
        sku t = s /\ timestamp t = numberOfInteger (decimalValue digits)) /\
    (forall r,
        getFault E id = None -> docs w !! id = None -> setFault E id d = None ->
        syncSession E files r id w
        = (Returned (countCreated r id), World (<[id := d]> (docs w)) (ticks w'))).
Proof.
  destruct (synthesize_run E files id w) as (d & k & Hrun & _ & _ & _ & _ & Hall).
  assert (Forall2 (EntryFor E (ticks w) k)
            (foundationFiles (sessionFiles files id)) (foundationTryons d)) as Hfor.
  { eapply Forall2_impl; [exact Hall|]. intros name t. apply EntryOf_EntryFor. }
  exists d, (World (docs w) k), (foundationFiles (sessionFiles files id)).
  split_and!; [done|done| |done| |].
  - intros name. unfold foundationFiles, sessionFiles.
    rewrite list_elem_of_In, !filter_In, andb_true_iff, <-list_elem_of_In.
    rewrite startsWith_spec, includes_spec, endsWith_spec. unfold Under.
    split.
    + intros [[Hin [rest Hrest]] [Hinc Hend]]. split_and!; [done| |done|done].
      exists rest. by rewrite Hrest, !append_assoc.
    + intros (Hin & [rest Hrest] & Hinc & Hend). split_and!; [done| |done|done].
      exists rest. by rewrite Hrest, !append_assoc.
  - intros name t s digits Hin Hs Hsku Hdig Hexact.
    apply elem_of_lookup_zip_with in Hin as (i & name' & t' & [= <- <-] & Hn & Ht).
    destruct (Forall2_lookup_lr _ _ _ _ _ _ Hfor Hn Ht)
      as (_ & leaf & Hleaf & _ & Hmatch & _).
    apply Hmatch, match_here.
    apply splitPop_spec in Hleaf, Hexact. rewrite Hleaf in Hexact. subst leaf.
    exists "". split; [by rewrite append_empty_r|]. by split_and!.
  - intros r Hget Hdoc Hset.
    unfold syncSession, tryCatch, bind at 1, docExists. rewrite Hget, Hdoc.
    rewrite bool_decide_eq_false_2 by (intros [? ?]; congruence).
    unfold bind at 1. rewrite Hrun. unfold bind, docSet. by rewrite Hset.
Qed.

Lemma foundation_entries_witness :
  exists d w',
    synthesize Scenario.healthy Cases.trying "s1" Scenario.emptyWorld
    = (Returned d, w') /\
    Forall2 (EntryFor Scenario.healthy 0 (ticks w')) Cases.trying
            (foundationTryons d) /\
    foundationTryons d =
      [ Tryon "SKU42" (Finite 1690000000000)
          (publicUrl "sessions/s1/foundation-SKU42-1690000000000.jpg");
        Tryon "A" (Finite 1) (publicUrl "sessions/s1/xfoundation-A-1.jpg");
        Tryon "unknown" (Finite (Scenario.ticking 2))
          (publicUrl "sessions/s1/foundation-badname.jpg");
        Tryon "unknown" (Finite (Scenario.ticking 3))
          (publicUrl "sessions/s1/foundation-A-1.jpgx/foundation-bad.jpg") ].
Proof.
  destruct (foundation_entries Scenario.healthy Cases.trying "s1"
              Scenario.emptyWorld)
    as (d & w' & names & Hrun & -> & _ & Hall & _).
  exists d, w'. split; [exact Hrun|]. split; [exact Hall|].
  vm_compute in Hrun. injection Hrun as <- _. reflexivity.
Defined.

(** ** The generation handler *)

Module DerenderFacts.
Import Derender.

(** The best-effort block of lines 104-152 never throws. *)
Lemma persist_is_caught E img mime out w :
  exists w', tryCatch (persist E img mime out) (fun _ => ret tt) w = (Returned tt, w').
Proof.
  unfold tryCatch, persist, bind, dateNow, uploadImage, addGeneration.
  repeat match goal with
         | |- context [match ?f with Some _ => _ | None => _ end] =>
             destruct f; simpl
         end; eauto.
Qed.

Lemma findInlineData_none r :
  (forall ps, firstParts r = Some ps ->
              Forall (fun p => partInlineData p = None) ps) ->
  findInlineData r = None.
Proof.
  unfold findInlineData. intros Hparts.
  destruct (firstParts r) as [ps|]; [|done].
  specialize (Hparts ps eq_refl).
  induction Hparts as [|p ps Hp _ IH]; [done|].
  simpl. rewrite Hp. simpl. exact IH.
Qed.

(** Without an inline part, the answer is 200 and carries whatever
    [response.text()] returned. *)
Lemma no_image_answer E w img mime r t :
  nonEmpty img = true ->
  truthy (GOOGLE_API_KEY E) = true ->
  generateContent E (InlineData img (orElse mime "image/jpeg")) = Returned r ->
  findInlineData r = None ->
  text r = Returned t ->
  POST E (ObjectBody (Some img) mime) w
  = (Returned (Response 200 (ErrorBody "No image generated by model" t None)), w).
Proof.
  intros Himg Hkey Hgen Hnone Htext.
  unfold POST, tryCatch, bind, readBody, ret, callModel, callText. simpl.
  rewrite Himg, Hkey. simpl.
  destruct img as [|c img]; [done|]. simpl. rewrite Hgen, Hnone, Htext. done.
Qed.

(** With an inline part, the answer is 200 with that part's data and MIME
    type, whatever the clock, the uploads and the document store do. *)
Lemma image_answer E w img mime r out :
  nonEmpty img = true ->
  truthy (GOOGLE_API_KEY E) = true ->
  generateContent E (InlineData img (orElse mime "image/jpeg")) = Returned r ->
  findInlineData r = Some out ->
  (POST E (ObjectBody (Some img) mime) w).1
  = Returned (Response 200 (ImageBody (data out) (mimeType out))).
Proof.
  intros Himg Hkey Hgen Hsome.
  unfold POST, tryCatch, bind, readBody, ret, callModel. cbn -[persist].
  rewrite Himg, Hkey. cbn -[persist]. rewrite Hgen, Hsome.
  by destruct (persist E img mime out w) as [[[]|e] w'].
Qed.

(** Without an inline part, a [response.text()] that throws reaches the
    outer [catch]. *)
Lemma text_throws_is_500 E w img mime r e :
  nonEmpty img = true ->
  truthy (GOOGLE_API_KEY E) = true ->
  generateContent E (InlineData img (orElse mime "image/jpeg")) = Returned r ->
  findInlineData r = None ->
  text r = Threw e ->
  POST E (ObjectBody (Some img) mime) w
  = (Returned (Response 500
                 (ErrorBody "Internal Server Error" None (Some (errorText e)))),
     w).
Proof.
  intros Himg Hkey Hgen Hnone Htext.
  unfold POST, tryCatch, bind, readBody, ret, callModel, callText. simpl.
  rewrite Himg, Hkey. simpl.
  destruct img as [|c img]; [done|]. simpl. rewrite Hgen, Hnone, Htext. done.
Qed.

End DerenderFacts.

(** C7, as stated, fails on a response without image and without text: the
    first candidate of [Scenario.silent] has no part at all, [text()] gives
    the empty string for it, and the answer is 200 with [rawText: ""], a
    field that is there; on the blocked response [Cases.blocked] there is no
    part either, [text()] throws, and the answer is 500. *)
Lemma silent_response_keeps_rawText :
  Derender.firstParts Scenario.silent = Some [] /\
  Derender.firstParts Cases.blocked = None /\
  Derender.POST (Scenario.studio Scenario.silent)
                (Derender.ObjectBody (Some "QUJD") None) Scenario.blank
  = (Returned (Response 200
                 (Derender.ErrorBody "No image generated by model" (Some "") None)),
     Scenario.blank) /\
  Derender.ErrorBody "No image generated by model" (Some "") None
  <> Derender.ErrorBody "No image generated by model" None None /\
  Js.status
    (match (Derender.POST (Scenario.studio Cases.blocked)
                          (Derender.ObjectBody (Some "QUJD") None)
                          Scenario.blank).1 with
     | Returned resp => resp
     | Threw _ => Response 0 (Derender.ErrorBody "" None None)
     end)
  = 500%Z.
Proof. by split_and!. Qed.

(** C7, amended.  When the model's response is received and its first
    candidate has no part with inline data, the answer follows
    [response.text()]: if it returns [t], the handler answers 200 with the
    body [{error: "No image generated by model", rawText: t}], so that
    [rawText] is the empty string, not absent, when the response has no text;
    if it throws, the outer [catch] answers 500 with the generic error body.
    In both cases nothing is stored. *)
Theorem no_image_answer_follows_text E w img mime r :
  nonEmpty img = true ->
  Derender.truthy (Derender.GOOGLE_API_KEY E) = true ->
  Derender.generateContent E
    (Derender.InlineData img (Derender.orElse mime "image/jpeg")) = Returned r ->
  (forall ps, Derender.firstParts r = Some ps ->
              Forall (fun p => Derender.partInlineData p = None) ps) ->
  (forall t,
      Derender.text r = Returned t ->
      Derender.POST E (Derender.ObjectBody (Some img) mime) w
      = (Returned (Response 200
                     (Derender.ErrorBody "No image generated by model" t None)),
         w)) /\
  (forall e,
      Derender.text r = Threw e ->
      Derender.POST E (Derender.ObjectBody (Some img) mime) w
      = (Returned (Response 500
                     (Derender.ErrorBody "Internal Server Error" None
                                         (Some (errorText e)))),
         w)).
Proof.
  intros Himg Hkey Hgen Hparts.
  pose proof (DerenderFacts.findInlineData_none r Hparts) as Hnone.
  split.
  - intros t Htext. by apply (DerenderFacts.no_image_answer E w img mime r t).
  - intros e Htext. by apply (DerenderFacts.text_throws_is_500 E w img mime r e).
Qed.

Lemma no_image_answer_follows_text_witness :
  Derender.POST (Scenario.studio Scenario.silent)
                (Derender.ObjectBody (Some "QUJD") None) Scenario.blank
  = (Returned (Response 200
                 (Derender.ErrorBody "No image generated by model" (Some "") None)),
     Scenario.blank) /\
  Derender.POST (Scenario.studio Cases.blocked)
                (Derender.ObjectBody (Some "QUJD") None) Scenario.blank
  = (Returned (Response 500
                 (Derender.ErrorBody
                    "Internal Server Error" None
                    (Some "Text not available. Response was blocked due to SAFETY"))),
     Scenario.blank).
Proof.
  destruct (no_image_answer_follows_text (Scenario.studio Scenario.silent)
              Scenario.blank "QUJD" None Scenario.silent eq_refl eq_refl eq_refl)
    as [Hreturns _].
  { intros ps [= <-]. constructor. }
  destruct (no_image_answer_follows_text (Scenario.studio Cases.blocked)
              Scenario.blank "QUJD" None Cases.blocked eq_refl eq_refl eq_refl)
    as [_ Hthrows].
  { intros ps [=]. }
  split; [exact (Hreturns (Some "") eq_refl)|exact (Hthrows _ eq_refl)].
Defined.

(** C8.  When an inline part is found, the answer does not depend on the
    persistence step: under any two surroundings that differ in the clock,
    in which uploads throw and in whether the document-store write throws,
    the handler answers the same, namely 200 with the part's data and MIME
    type. *)
Theorem persistence_failure_keeps_the_answer E1 E2 w1 w2 img mime r out :
  nonEmpty img = true ->
  Derender.truthy (Derender.GOOGLE_API_KEY E1) = true ->
  Derender.truthy (Derender.GOOGLE_API_KEY E2) = true ->
  Derender.generateContent E1
    (Derender.InlineData img (Derender.orElse mime "image/jpeg")) = Returned r ->
  Derender.generateContent E2
    (Derender.InlineData img (Derender.orElse mime "image/jpeg")) = Returned r ->
  Derender.findInlineData r = Some out ->
  (Derender.POST E1 (Derender.ObjectBody (Some img) mime) w1).1
  = Returned (Response 200
                (Derender.ImageBody (Derender.data out) (Derender.mimeType out))) /\
  (Derender.POST E2 (Derender.ObjectBody (Some img) mime) w2).1
  = (Derender.POST E1 (Derender.ObjectBody (Some img) mime) w1).1.
Proof.
  intros Himg Hk1 Hk2 Hg1 Hg2 Hsome.
  rewrite (DerenderFacts.image_answer E1 w1 img mime r out) by done.
  by rewrite (DerenderFacts.image_answer E2 w2 img mime r out).
Qed.

Lemma persistence_failure_keeps_the_answer_witness :
  (Derender.POST (Scenario.studio Scenario.pictured)
                 (Derender.ObjectBody (Some "QUJD") None) Scenario.blank).1
  = Returned (Response 200 (Derender.ImageBody "QUJD" "image/png")) /\
  (Derender.POST (Scenario.studioBucketDown Scenario.pictured)
                 (Derender.ObjectBody (Some "QUJD") None) Scenario.blank).1
  = (Derender.POST (Scenario.studio Scenario.pictured)
                   (Derender.ObjectBody (Some "QUJD") None) Scenario.blank).1.
Proof.
  apply (persistence_failure_keeps_the_answer
           (Scenario.studio Scenario.pictured)
           (Scenario.studioBucketDown Scenario.pictured)
           Scenario.blank Scenario.blank "QUJD" None Scenario.pictured
           (Derender.InlineData "QUJD" "image/png")); reflexivity.
Defined.

(** What the persistence step leaves behind in the three sample
    surroundings: two objects and a record; nothing; two objects and no
    record. *)
Lemma persistence_effects :
  let left E :=
    (Derender.POST E (Derender.ObjectBody (Some "QUJD") None) Scenario.blank).2 in
  (size (Derender.objects (left (Scenario.studio Scenario.pictured))) = 2 /\
   length (Derender.generations (left (Scenario.studio Scenario.pictured))) = 1) /\
  (size (Derender.objects (left (Scenario.studioBucketDown Scenario.pictured))) = 0 /\
   length (Derender.generations (left (Scenario.studioBucketDown Scenario.pictured))) = 0) /\
  (size (Derender.objects (left (Scenario.studioStoreDown Scenario.pictured))) = 2 /\
   length (Derender.generations (left (Scenario.studioStoreDown Scenario.pictured))) = 0).
Proof. by vm_compute. Qed.

(** A request without an image is answered 400 before anything else is
    called: the answer does not depend on the surroundings, and the stores
    are untouched. *)
Lemma missing_image_is_400 E w mime :
  Derender.POST E (Derender.ObjectBody None mime) w
  = (Returned (Response 400 (Derender.ErrorBody "Image data is required" None None)),
     w).
Proof. reflexivity. Qed.

(* ===================================================================== *)
(** * Part IV: further properties of the handlers                         *)
(* ===================================================================== *)

(** ** The sweep and the dry run, continued *)

Module MoreSweepFacts.
Import Expect.

(** The fields of a synthesised record that do not depend on the listing,
    and the clock readings behind the others: with [t] the reading at which
    [syncedAt] is taken, the placeholders of the try-on entries are read
    after [t]. *)
Lemma synthesize_fields E files id w :
  exists d k,
    synthesize E files id w = (Returned d, World (docs w) k) /\
    Backfilled id d /\
    let t := ticks w + (if testAllDigits id then 0 else 1) in
    syncedAt d = Finite (clock E t) /\
    createdAt d = (if testAllDigits id then parseInt id
                   else Finite (clock E (ticks w))) /\
    Forall2 (EntryOf E (S t) k)
            (foundationFiles (sessionFiles files id)) (foundationTryons d).
Proof.
  unfold synthesize, Backfilled.
  destruct (testAllDigits id) eqn:Hdig.
  - destruct (mapM_tryonOf_run E (foundationFiles (sessionFiles files id))
                (World (docs w) (S (ticks w)))) as (ts & k & Hts & Hk & Hall).
    eexists _, k. unfold bind, ret, dateNow. rewrite Hts. simpl in *.
    split; [done|]. rewrite Nat.add_0_r.
    split; [|by split_and!].
    split_and!; try done;
      cbn [originalImageUrl derenderedImageUrl]; case_bool_decide; auto.
  - destruct (mapM_tryonOf_run E (foundationFiles (sessionFiles files id))
                (World (docs w) (S (S (ticks w))))) as (ts & k & Hts & Hk & Hall).
    eexists _, k. unfold bind, ret, dateNow. simpl. rewrite Hts. simpl in *.
    split; [done|]. rewrite Nat.add_1_r.
    split; [|by split_and!].
    split_and!; try done;
      cbn [originalImageUrl derenderedImageUrl]; case_bool_decide; auto.
Qed.

(** The dry run's loop never writes and never reads the clock. *)
Lemma forOf_checkSession_world E ids r w :
  (forOf (checkSession E) r ids w).2 = w.
Proof.
  revert r. induction ids as [|id ids IH]; intros r; [done|].
  cbn [forOf]. unfold bind at 1, checkSession, bind at 1, docExists.
  destruct (getFault E id); [done|].
  destruct (bool_decide (is_Some (docs w !! id))); simpl; apply IH.
Qed.

(** With every read answering, the loop counts the folders that have a
    document and lists, in order, those that have none. *)
Lemma forOf_checkSession_report E ids r w :
  (forall id, id ∈ ids -> getFault E id = None) ->
  forOf (checkSession E) r ids w
  = (Returned
       (StatusReport
          (totalFoldersSeen r)
          (inFirestore r + length (List.filter (synced w) ids))
          (missingFromFirestore r
           + length (List.filter (fun id => negb (synced w id)) ids))
          (missing r ++ List.filter (fun id => negb (synced w id)) ids)),
     w).
Proof.
  revert r. induction ids as [|id ids IH]; intros r Hq.
  { simpl. rewrite !Nat.add_0_r, app_nil_r. by destruct r. }
  cbn [forOf]. unfold bind at 1, checkSession, bind at 1, docExists.
  rewrite (Hq id) by left. cbn [List.filter].
  change (bool_decide (is_Some (docs w !! id))) with (synced w id).
  destruct (synced w id); cbn [negb]; unfold ret;
    (rewrite IH by (intros id' Hin; apply Hq; by right));
    cbn [totalFoldersSeen inFirestore missingFromFirestore missing length];
    do 2 f_equal; f_equal; try lia.
  by rewrite <-List.app_assoc.
Qed.

(** A caller who is not let in leaves the world as it is. *)
Lemma POST_kept_out E b w : letIn E b = false -> (POST E b w).2 = w.
Proof.
  unfold letIn, POST, tryCatch, bind. intros Hout.
  destruct b as [| |secret]; simpl in *; [|done|].
  - apply negb_false_iff in Hout. by rewrite Hout.
  - apply negb_false_iff in Hout. by rewrite Hout.
Qed.

Lemma POST_unlisted E b w e :
  letIn E b = true -> listing E = Threw e ->
  POST E b w
  = (Returned (Response 500
                 (PostError "Internal Server Error" (Some (errorText e)))),
     w).
Proof.
  intros Hin Hls. rewrite (POST_letIn E b w Hin).
  unfold tryCatch, sweep, bind, getFiles. by rewrite Hls.
Qed.

(** Entries that are each a function of their identifier form the image of
    the identifiers. *)
Lemma details_by_identifier (f : string -> detail) dts ids :
  map sessionId dts = ids ->
  Forall (fun dt => dt = f (sessionId dt)) dts ->
  dts = map f ids.
Proof.
  intros <-. induction 1 as [|dt dts Hdt _ IH]; [done|].
  simpl. by rewrite <-Hdt, <-IH.
Qed.

Lemma count_quiet_created w ids :
  count "created" (map (quietEntry w) ids)
  = length (List.filter (fun id => negb (synced w id)) ids).
Proof.
  unfold count. induction ids as [|id ids IH]; [done|].
  simpl. unfold quietEntry at 1. simpl.
  destruct (synced w id); simpl; by rewrite IH.
Qed.

Lemma count_quiet_synced w ids :
  count "already_exists" (map (quietEntry w) ids)
  = length (List.filter (synced w) ids).
Proof.
  unfold count. induction ids as [|id ids IH]; [done|].
  simpl. unfold quietEntry at 1. simpl.
  destruct (synced w id); simpl; by rewrite IH.
Qed.

Lemma count_quiet_failed w ids : count "failed" (map (quietEntry w) ids) = 0.
Proof.
  unfold count. induction ids as [|id ids IH]; [done|].
  simpl. unfold quietEntry at 1. simpl. by destruct (synced w id).
Qed.

Lemma created_quiet w ids :
  map sessionId
      (List.filter (fun dt => String.eqb (outcomeStatus dt) "created")
                   (map (quietEntry w) ids))
  = List.filter (fun id => negb (synced w id)) ids.
Proof.
  induction ids as [|id ids IH]; [done|].
  simpl. unfold quietEntry at 1. simpl.
  destruct (synced w id); simpl; by rewrite IH.
Qed.

(** With no document-store call throwing, every entry is its folder's quiet
    entry. *)
Lemma Settled_quiet E files w final dt :
  getFault E (sessionId dt) = None ->
  (forall d, setFault E (sessionId dt) d = None) ->
  Settled E files (docs w !! sessionId dt) final dt ->
  dt = quietEntry w (sessionId dt).
Proof.
  unfold Settled, quietEntry, synced. intros Hget Hset. rewrite Hget.
  destruct (docs w !! sessionId dt) as [d0|] eqn:Hdoc.
  - intros [Heq _]. rewrite bool_decide_eq_true_2 by eauto. done.
  - intros (w1 & w2 & d & _ & H). rewrite Hset in H. destruct H as [Heq _].
    rewrite bool_decide_eq_false_2 by (intros [? ?]; congruence). done.
Qed.

End MoreSweepFacts.

Import Expect MoreSweepFacts.

(** X1.  With a non-empty secret configured, a request whose body is not an
    object carrying exactly that secret never reaches the bucket: nothing is
    read or written, whatever the listing and the document store would do.
    A body that is an object with another secret or none, or that is not
    JSON at all, is answered 401 [{error: "Unauthorized"}]; a body that is
    the JSON value [null] makes the destructuring of line 7 throw and is
    answered 500 with the generic error body. *)
Theorem refused_caller_gets_401 E b w expected :
  SYNC_SECRET E = Some expected ->
  expected <> "" ->
  b <> ObjectBody (Some expected) ->
  exists resp,
    POST E b w = (Returned resp, w) /\
    (b <> NullBody -> resp = Response 401 (PostError "Unauthorized" None)) /\
    (b = NullBody ->
     Js.status resp = 500%Z /\
     exists m, body resp = PostError "Internal Server Error" (Some m)).
Proof.
  intros Hsec Hne Hother.
  assert (forall secret, secret <> Some expected -> refused E secret = true) as Href.
  { intros secret Hs. unfold refused. rewrite Hsec.
    apply nonEmpty_true in Hne. rewrite Hne.
    by rewrite bool_decide_eq_false_2. }
  unfold POST, tryCatch, bind. destruct b as [| |secret]; simpl.
  - rewrite Href by done. eexists. split; [done|]. by split.
  - eexists. split; [done|]. split; [done|]. intros _. simpl. eauto.
  - rewrite Href by (intros ->; done). eexists. split; [done|]. by split.
Qed.

Lemma refused_caller_gets_401_witness :
  POST Cases.guarded (ObjectBody (Some "guess")) Scenario.emptyWorld
  = (Returned (Response 401 (PostError "Unauthorized" None)), Scenario.emptyWorld) /\
  POST Cases.guarded Unparseable Scenario.emptyWorld
  = (Returned (Response 401 (PostError "Unauthorized" None)), Scenario.emptyWorld) /\
  exists resp,
    POST Cases.guarded NullBody Scenario.emptyWorld
    = (Returned resp, Scenario.emptyWorld) /\
    Js.status resp = 500%Z.
Proof.
  destruct (refused_caller_gets_401 Cases.guarded (ObjectBody (Some "guess"))
              Scenario.emptyWorld "s3cret" eq_refl)
    as (r1 & H1 & Hr1 & _); [done|done|].
  destruct (refused_caller_gets_401 Cases.guarded Unparseable
              Scenario.emptyWorld "s3cret" eq_refl)
    as (r2 & H2 & Hr2 & _); [done|done|].
  destruct (refused_caller_gets_401 Cases.guarded NullBody
              Scenario.emptyWorld "s3cret" eq_refl)
    as (r3 & H3 & _ & Hr3); [done|done|].
  rewrite Hr1 in H1 by done. rewrite Hr2 in H2 by done.
  split; [exact H1|]. split; [exact H2|].
  exists r3. split; [exact H3|]. by destruct (Hr3 eq_refl).
Defined.

(** X2.  A configured secret that is the empty string switches the check
    off: every request is handled exactly as if no secret were configured. *)
Theorem empty_secret_disables_check E b w :
  SYNC_SECRET E = Some "" ->
  POST E b w = POST (Env None (listing E) (clock E) (getFault E) (setFault E)) b w.
Proof.
  intros Hsec. unfold POST, tryCatch, bind, refused. rewrite Hsec. simpl.
  destruct (readSecret b w) as [[secret|e] w0]; done.
Qed.

Lemma empty_secret_disables_check_witness :
  POST Cases.emptySecret (ObjectBody (Some "anything")) Scenario.emptyWorld
  = POST Scenario.healthy (ObjectBody (Some "anything")) Scenario.emptyWorld.
Proof.
  apply (empty_secret_disables_check Cases.emptySecret
           (ObjectBody (Some "anything")) Scenario.emptyWorld).
  reflexivity.
Defined.

(** X3.  When the bucket cannot be listed, both the sweep (for a caller who
    is let in) and the dry run answer 500 with the generic error body
    carrying the message of what [getFiles] threw; no document is read or
    written. *)
Theorem unreadable_listing_is_500 E b w e :
  letIn E b = true ->
  listing E = Threw e ->
  POST E b w
  = (Returned (Response 500
                 (PostError "Internal Server Error" (Some (errorText e)))),
     w) /\
  GET E w
  = (Returned (Response 500
                 (GetError "Internal Server Error" (Some (errorText e)))),
     w).
Proof.
  intros Hin Hls. split; [by apply POST_unlisted|].
  unfold GET, tryCatch, bind, getFiles. by rewrite Hls.
Qed.

Lemma unreadable_listing_is_500_witness :
  POST Cases.bucketDown Unparseable Scenario.emptyWorld
  = (Returned (Response 500
                 (PostError "Internal Server Error" (Some "bucket unavailable"))),
     Scenario.emptyWorld) /\
  GET Cases.bucketDown Scenario.emptyWorld
  = (Returned (Response 500
                 (GetError "Internal Server Error" (Some "bucket unavailable"))),
     Scenario.emptyWorld).
Proof.
  apply (unreadable_listing_is_500 Cases.bucketDown Unparseable
           Scenario.emptyWorld (ErrorObject "bucket unavailable"));
    reflexivity.
Defined.

(** X4.  The sweep never lets an exception out and answers in one of three
    ways: 200 with a tally, 401 [Unauthorized], or 500 with the generic error
    body; in the last two cases nothing has been written. *)
Theorem sweep_always_answers E b w :
  exists resp w',
    POST E b w = (Returned resp, w') /\
    ((Js.status resp = 200%Z /\ exists r, body resp = Tally r) \/
     (Js.status resp = 401%Z /\ body resp = PostError "Unauthorized" None /\ w' = w) \/
     (Js.status resp = 500%Z /\ w' = w /\
      exists m, body resp = PostError "Internal Server Error" (Some m))).
Proof.
  destruct (letIn E b) eqn:Hin.
  - destruct (listing E) as [files|e] eqn:Hls.
    + destruct (POST_run E b w files Hin Hls) as (r & w' & Hpost & _).
      exists (Response 200 (Tally r)), w'. split; [done|]. left. eauto.
    + rewrite (POST_unlisted E b w e Hin Hls). eexists _, w. split; [done|].
      right. right. simpl. eauto.
  - unfold letIn in Hin. unfold POST, tryCatch, bind.
    destruct b as [| |secret]; simpl in *.
    + apply negb_false_iff in Hin. rewrite Hin. eexists _, w. split; [done|].
      right. left. done.
    + eexists _, w. split; [done|]. right. right. simpl. eauto.
    + apply negb_false_iff in Hin. rewrite Hin. eexists _, w. split; [done|].
      right. left. done.
Qed.

(** X5.  The dry run never lets an exception out, answers 200 with a report
    or 500 with the generic error body, and in every case leaves the document
    store exactly as it was. *)
Theorem dry_run_changes_nothing E w :
  exists resp,
    GET E w = (Returned resp, w) /\
    ((Js.status resp = 200%Z /\ exists r, body resp = Report r) \/
     (Js.status resp = 500%Z /\
      exists m, body resp = GetError "Internal Server Error" (Some m))).
Proof.
  unfold GET, tryCatch, bind, getFiles.
  destruct (listing E) as [files|e].
  - pose proof (forOf_checkSession_world E (sessionFolders files)
                  (StatusReport (length (sessionFolders files)) 0 0 []) w) as Hw.
    destruct (forOf (checkSession E) _ (sessionFolders files) w) as [[r|e] w1];
      simpl in Hw; subst w1.
    + eexists. split; [done|]. left. simpl. eauto.
    + eexists. split; [done|]. right. simpl. eauto.
  - eexists. split; [done|]. right. simpl. eauto.
Qed.

(** X6.  When every read answers, the dry run reports the number of folders,
    the number of them that have a document, and, in listing order, the
    folders that have none, [missingFromFirestore] being the length of that
    list. *)
Theorem dry_run_report_is_accurate E w files :
  listing E = Returned files ->
  (forall id, id ∈ sessionFolders files -> getFault E id = None) ->
  GET E w
  = (Returned
       (Response 200
          (Report
             (StatusReport
                (length (sessionFolders files))
                (length (List.filter (synced w) (sessionFolders files)))
                (length (List.filter (fun id => negb (synced w id))
                                     (sessionFolders files)))
                (List.filter (fun id => negb (synced w id))
                             (sessionFolders files))))),
     w).
Proof.
  intros Hls Hq. unfold GET, tryCatch, bind at 1, getFiles. rewrite Hls.
  unfold bind. by rewrite (forOf_checkSession_report E _ _ w Hq).
Qed.

Lemma dry_run_report_is_accurate_witness :
  GET Scenario.healthy Scenario.emptyWorld
  = (Returned
       (Response 200
          (Report (StatusReport 2 0 2 ["s1"; "1700000000000"]))),
     Scenario.emptyWorld).
Proof.
  apply (dry_run_report_is_accurate Scenario.healthy Scenario.emptyWorld
           Scenario.listed); [reflexivity|by intros].
Defined.

(** X7.  When no document-store call throws, the sweep does exactly what the
    dry run announces: every folder gets the entry ['already_exists'] or
    ['created'] according to whether it had a document, none fails, the
    folders created are, in order, the dry run's [missing] list, and the two
    counters agree with the dry run's. *)
Theorem sweep_creates_what_dry_run_misses E b w files :
  letIn E b = true ->
  listing E = Returned files ->
  (forall id, id ∈ sessionFolders files -> getFault E id = None) ->
  (forall id d, id ∈ sessionFolders files -> setFault E id d = None) ->
  exists rG rP w',
    GET E w = (Returned (Response 200 (Report rG)), w) /\
    POST E b w = (Returned (Response 200 (Tally rP)), w') /\
    details rP = map (quietEntry w) (sessionFolders files) /\
    failed rP = 0 /\
    newlyCreated rP = missingFromFirestore rG /\
    alreadySynced rP = inFirestore rG /\
    map sessionId
        (List.filter (fun dt => String.eqb (outcomeStatus dt) "created")
                     (details rP))
    = missing rG.
Proof.
  intros Hin Hls Hget Hset.
  destruct (POST_run E b w files Hin Hls)
    as (r & w' & Hpost & Htot & Hdet & Hs & Hn & Hf & Hall & _).
  assert (details r = map (quietEntry w) (sessionFolders files)) as Hquiet.
  { apply details_by_identifier; [done|].
    apply Forall_forall. intros dt Hdt.
    assert (sessionId dt ∈ sessionFolders files) as Hid.
    { rewrite <-Hdet. by apply list_elem_of_fmap_2. }
    rewrite Forall_forall in Hall.
    eapply Settled_quiet; [by apply Hget|intros d; by apply Hset|by apply Hall]. }
  eexists _, r, w'. split.
  { unfold GET, tryCatch, bind at 1, getFiles. rewrite Hls.
    unfold bind. by rewrite (forOf_checkSession_report E _ _ w Hget). }
  split; [done|]. split; [done|]. simpl.
  rewrite Hf, Hn, Hs, Hquiet.
  by rewrite count_quiet_failed, count_quiet_created, count_quiet_synced,
    created_quiet.
Qed.

Lemma sweep_creates_what_dry_run_misses_witness :
  exists rG rP w',
    GET Scenario.healthy Scenario.emptyWorld
    = (Returned (Response 200 (Report rG)), Scenario.emptyWorld) /\
    POST Scenario.healthy Unparseable Scenario.emptyWorld
    = (Returned (Response 200 (Tally rP)), w') /\
    missing rG = ["s1"; "1700000000000"] /\
    newlyCreated rP = 2 /\
    details rP = [Detail "s1" "created" None;
                  Detail "1700000000000" "created" None].
Proof.
  destruct (sweep_creates_what_dry_run_misses Scenario.healthy Unparseable
              Scenario.emptyWorld Scenario.listed eq_refl eq_refl
              (fun _ _ => eq_refl) (fun _ _ _ => eq_refl))
    as (rG & rP & w' & Hget & Hpost & Hdet & _ & Hn & _ & _).
  exists rG, rP, w'. split; [exact Hget|]. split; [exact Hpost|].
  vm_compute in Hget. injection Hget as <-.
  split; [reflexivity|]. split; [by rewrite Hn|]. by rewrite Hdet.
Defined.

(** X8.  After a sweep that reported no failure, a dry run over the same
    listing whose reads all answer finds every folder in the document store
    and none missing. *)
Theorem dry_run_after_clean_sweep E1 E2 b w files r1 w1 :
  letIn E1 b = true ->
  listing E1 = Returned files ->
  POST E1 b w = (Returned (Response 200 (Tally r1)), w1) ->
  failed r1 = 0 ->
  listing E2 = Returned files ->
  (forall id, id ∈ sessionFolders files -> getFault E2 id = None) ->
  GET E2 w1
  = (Returned
       (Response 200
          (Report (StatusReport (length (sessionFolders files))
                                (length (sessionFolders files)) 0 []))),
     w1).
Proof.
  intros Hin Hls1 Hrun Hclean Hls2 Hget.
  destruct (POST_run E1 b w files Hin Hls1)
    as (r & w' & Hpost & Htot & Hdet & Hs & Hn & Hf & Hall & _).
  rewrite Hrun in Hpost. injection Hpost as <- <-.
  assert (forall id, id ∈ sessionFolders files -> synced w1 id = true) as Hthere.
  { intros id Hid. rewrite <-Hdet in Hid.
    apply list_elem_of_fmap in Hid as (dt & -> & Hdt).
    rewrite Forall_forall in Hall. apply bool_decide_eq_true.
    apply (Settled_landed _ _ _ _ _ (Hall dt Hdt)).
    rewrite Hf in Hclean. apply count_none in Hclean.
    rewrite Forall_forall in Hclean. by apply Hclean. }
  assert (forall ids : list string,
            (forall id, id ∈ ids -> synced w1 id = true) ->
            List.filter (synced w1) ids = ids /\
            List.filter (fun id => negb (synced w1 id)) ids = []) as Hfilter.
  { induction ids as [|id ids IH]; intros Hids; [done|].
    destruct IH as [IH1 IH2]; [intros id' Hin'; apply Hids; by right|].
    simpl. rewrite (Hids id) by left. simpl. by rewrite IH1, IH2. }
  destruct (Hfilter _ Hthere) as [Hyes Hno].
  unfold GET, tryCatch, bind at 1, getFiles. rewrite Hls2.
  unfold bind. rewrite (forOf_checkSession_report E2 _ _ w1 Hget).
  by rewrite Hyes, Hno.
Qed.

Lemma dry_run_after_clean_sweep_witness :
  exists w1,
    (POST Scenario.healthy Unparseable Scenario.emptyWorld).2 = w1 /\
    GET Scenario.healthy w1
    = (Returned (Response 200 (Report (StatusReport 2 2 0 []))), w1).
Proof.
  destruct (POST Scenario.healthy Unparseable Scenario.emptyWorld)
    as [o1 w1] eqn:H1.
  assert (exists r1, o1 = Returned (Response 200 (Tally r1)) /\ failed r1 = 0)
    as (r1 & -> & Hf1).
  { vm_compute in H1. injection H1 as <- _. eexists. by split. }
  exists w1. split; [reflexivity|].
  apply (dry_run_after_clean_sweep Scenario.healthy Scenario.healthy Unparseable
           Scenario.emptyWorld Scenario.listed r1 w1 eq_refl eq_refl H1 Hf1
           eq_refl (fun _ _ => eq_refl)).
Defined.

(** X9.  Whatever the request and whatever fails, the sweep leaves every
    document that was there as it was, and every document it adds belongs to
    a folder of the listing and is a backfilled record: flagged
    [syncedFromStorage], ['active'], not completed, with the fixed MIME
    types, model and prompt placeholders, and with each image URL either
    [null] or the public URL of the object directly in its folder. *)
Theorem sweep_only_adds_backfilled_records E b w :
  (forall id d,
      docs w !! id = Some d -> docs (POST E b w).2 !! id = Some d) /\
  (forall id d,
      docs w !! id = None -> docs (POST E b w).2 !! id = Some d ->
      Backfilled id d /\
      exists files, listing E = Returned files /\ id ∈ sessionFolders files).
Proof.
  destruct (letIn E b) eqn:Hin; [|rewrite (POST_kept_out E b w Hin);
                                  split; [done|intros; congruence]].
  destruct (listing E) as [files|e] eqn:Hls;
    [|rewrite (POST_unlisted E b w e Hin Hls); split; [done|intros; simpl in *; congruence]].
  destruct (POST_run E b w files Hin Hls)
    as (r & w' & Hpost & Htot & Hdet & Hs & Hn & Hf & Hall & Hrest).
  rewrite Hpost. simpl. rewrite Forall_forall in Hall.
  assert (forall id, id ∈ sessionFolders files ->
            exists dt, dt ∈ details r /\ sessionId dt = id) as Hentry.
  { intros id Hid. rewrite <-Hdet in Hid.
    apply list_elem_of_fmap in Hid as (dt & -> & Hdt). by exists dt. }
  split.
  - intros id d Hd. destruct (decide (id ∈ sessionFolders files)) as [Hid|Hid].
    + destruct (Hentry id Hid) as (dt & Hdt & <-).
      specialize (Hall dt Hdt). rewrite Hd in Hall.
      by apply Settled_keeps in Hall.
    + by rewrite (Hrest id Hid).
  - intros id d Hnone Hsome.
    destruct (decide (id ∈ sessionFolders files)) as [Hid|Hid];
      [|rewrite (Hrest id Hid) in Hsome; congruence].
    split; [|by exists files].
    destruct (Hentry id Hid) as (dt & Hdt & <-).
    specialize (Hall dt Hdt). rewrite Hnone, Hsome in Hall.
    unfold Settled in Hall. destruct (getFault E (sessionId dt)).
    { by destruct Hall as [_ ?]. }
    destruct Hall as (w1 & w2 & d' & Hsyn & Hd').
    destruct (synthesize_fields E files (sessionId dt) w1)
      as (d'' & k & Hsyn' & Hback & _).
    rewrite Hsyn in Hsyn'. injection Hsyn' as <- _.
    destruct (setFault E (sessionId dt) d'); destruct Hd' as [_ Heq];
      [done|]. by injection Heq as ->.
Qed.

(** X10.  The synthesis reads the clock in a fixed order.  When the clock
    does not run backwards, [syncedAt] is not earlier than a [createdAt]
    taken from the clock (a folder name that is not all digits), and the
    placeholder timestamp of every foundation file that does not match the
    pattern is not earlier than [syncedAt]. *)
Theorem timestamps_follow_the_clock E files id w :
  (forall i j, i <= j -> (clock E i <= clock E j)%Z) ->
  exists d w' s,
    synthesize E files id w = (Returned d, w') /\
    syncedAt d = Finite s /\
    (~ AllDigits id -> exists c, createdAt d = Finite c /\ (c <= s)%Z) /\
    Forall2 (fun name t =>
               NoFoundation (splitPop name) ->
               exists p, timestamp t = Finite p /\ (s <= p)%Z)
            (foundationFiles (sessionFiles files id)) (foundationTryons d).
Proof.
  intros Hmono.
  destruct (synthesize_fields E files id w)
    as (d & k & Hsyn & _ & Hsynced & Hcreated & Hall).
  eexists d, _, _. split; [exact Hsyn|]. split; [exact Hsynced|]. split.
  - intros Hnot%testAllDigits_false. rewrite Hnot in Hcreated |- *.
    eexists. split; [exact Hcreated|]. apply Hmono. lia.
  - eapply Forall2_impl; [exact Hall|]. intros name t (_ & _ & Hno) Hnof.
    destruct (Hno Hnof) as (_ & j & Hj & Ht).
    exists (clock E j). split; [done|]. apply Hmono. lia.
Qed.

Lemma timestamps_follow_the_clock_witness :
  exists d w',
    synthesize Scenario.healthy Cases.tryons "abc" Scenario.emptyWorld
    = (Returned d, w') /\
    createdAt d = Finite 1700000000000 /\
    syncedAt d = Finite 1700000000001 /\
    map timestamp (foundationTryons d)
    = [Finite 1700000000002; Finite 1690000000000].
Proof.
  destruct (timestamps_follow_the_clock Scenario.healthy Cases.tryons "abc"
              Scenario.emptyWorld)
    as (d & w' & s & Hsyn & _).
  { intros i j Hij. unfold Scenario.healthy, Scenario.ticking. simpl. lia. }
  exists d, w'. split; [exact Hsyn|].
  vm_compute in Hsyn. injection Hsyn as <- _. by split_and!.
Defined.

(** ** The generation handler, continued *)

Module MoreDerenderFacts.
Import Derender Courses.

Lemma truthy_Some image :
  truthy image = true -> exists img, image = Some img /\ nonEmpty img = true.
Proof. destruct image as [img|]; [eauto|done]. Qed.

(** The two objects of one generation have different names. *)
Lemma objectName_distinct stamp :
  objectName stamp "original.jpg" <> objectName stamp "processed.jpg".
Proof.
  unfold objectName. intros Heq.
  apply (inj (String.app "generations/")) in Heq.
  apply (inj (String.app (numberToString stamp))) in Heq.
  apply (inj (String.app "/")) in Heq. discriminate.
Qed.

(** The body of the inner [try], step by step: the clock is read once; the
    original is uploaded, then the processed image, then the record is
    added; the first call that throws ends it, what was stored before
    stays. *)
Lemma persist_steps E img mime out w :
  let stamp := clock E (ticks w) in
  let n1 := objectName stamp "original.jpg" in
  let n2 := objectName stamp "processed.jpg" in
  let o1 := StoredObject img (orElse mime "image/jpeg") true in
  let o2 := StoredObject (data out) (mimeType out) true in
  persist E img mime out w =
    match saveFault E n1 with
    | Some e => (Threw e, World (objects w) (generations w) (S (ticks w)))
    | None =>
        match saveFault E n2 with
        | Some e =>
            (Threw e,
             World (<[n1 := o1]> (objects w)) (generations w) (S (ticks w)))
        | None =>
            match addFault E (recordOf stamp mime out) with
            | Some e =>
                (Threw e,
                 World (<[n2 := o2]> (<[n1 := o1]> (objects w)))
                       (generations w) (S (ticks w)))
            | None =>
                (Returned tt,
                 World (<[n2 := o2]> (<[n1 := o1]> (objects w)))
                       (generations w ++ [recordOf stamp mime out])
                       (S (ticks w)))
            end
        end
    end.
Proof.
  intros stamp n1 n2 o1 o2.
  unfold persist, bind, dateNow, uploadImage, addGeneration. simpl.
  fold stamp. change ("generations/" +:+ numberToString stamp +:+ "/" +:+ "original.jpg")
    with n1.
  destruct (saveFault E n1); [done|]. simpl.
  change ("generations/" +:+ numberToString stamp +:+ "/" +:+ "processed.jpg")
    with n2.
  destruct (saveFault E n2); [done|]. simpl.
  change (GenerationDoc _ _ _ _ _ _ _) with (recordOf stamp mime out).
  by destruct (addFault E (recordOf stamp mime out)).
Qed.

(** With an inline part found, the answer is the part and the world is what
    the persistence step left, whether it threw or not. *)
Lemma POST_with_image E w img mime r out :
  nonEmpty img = true ->
  truthy (GOOGLE_API_KEY E) = true ->
  generateContent E (InlineData img (orElse mime "image/jpeg")) = Returned r ->
  findInlineData r = Some out ->
  POST E (ObjectBody (Some img) mime) w
  = (Returned (Response 200 (ImageBody (data out) (mimeType out))),
     (persist E img mime out w).2).
Proof.
  intros Himg Hkey Hgen Hsome.
  unfold POST, tryCatch, bind, readBody, ret, callModel. cbn -[persist].
  rewrite Himg, Hkey. cbn -[persist]. rewrite Hgen, Hsome.
  by destruct (persist E img mime out w) as [[[]|e] w'].
Qed.

Lemma POST_without_image E w image mime :
  truthy image = false ->
  POST E (ObjectBody image mime) w
  = (Returned (Response 400 (ErrorBody "Image data is required" None None)), w).
Proof.
  intros Himg. unfold POST, tryCatch, bind, readBody, ret. simpl.
  by rewrite Himg.
Qed.

Lemma POST_without_key E w image mime :
  truthy image = true ->
  truthy (GOOGLE_API_KEY E) = false ->
  POST E (ObjectBody image mime) w
  = (Returned (Response 500 (ErrorBody "GOOGLE_API_KEY is not set" None None)), w).
Proof.
  intros Himg Hkey. unfold POST, tryCatch, bind, readBody, ret. simpl.
  by rewrite Himg, Hkey.
Qed.

Lemma POST_model_throws E w img mime e :
  nonEmpty img = true ->
  truthy (GOOGLE_API_KEY E) = true ->
  generateContent E (InlineData img (orElse mime "image/jpeg")) = Threw e ->
  POST E (ObjectBody (Some img) mime) w
  = (Returned (Response 500
                 (ErrorBody "Internal Server Error" None (Some (errorText e)))),
     w).
Proof.
  intros Himg Hkey Hgen.
  unfold POST, tryCatch, bind, readBody, ret, callModel. simpl.
  rewrite Himg, Hkey. simpl.
  destruct img as [|c img]; [done|]. simpl. by rewrite Hgen.
Qed.

Lemma POST_course E b w :
  exists resp w', POST E b w = (Returned resp, w') /\ Course E w b resp w'.
Proof.
  destruct b as [e| |image mime].
  - eexists _, w. split; [done|]. constructor.
  - eexists _, w. split; [done|]. constructor.
  - destruct (truthy image) eqn:Himg.
    2:{ eexists _, w. split; [by apply POST_without_image|]. by constructor. }
    destruct (truthy (GOOGLE_API_KEY E)) eqn:Hkey.
    2:{ eexists _, w. split; [by apply POST_without_key|]. by constructor. }
    apply truthy_Some in Himg as (img & -> & Himg).
    destruct (generateContent E (InlineData img (orElse mime "image/jpeg")))
      as [r|e] eqn:Hgen.
    2:{ eexists _, w. split; [by apply POST_model_throws|]. by constructor. }
    destruct (findInlineData r) as [out|] eqn:Hfind.
    { eexists _, _. split; [by apply (POST_with_image E w img mime r out)|].
      by apply (pictured E w img mime r out). }
    destruct (text r) as [t|e] eqn:Htext.
    + eexists _, w.
      split; [by apply (DerenderFacts.no_image_answer E w img mime r t)|].
      by apply (told E w img mime r t).
    + eexists _, w.
      split; [by apply (DerenderFacts.text_throws_is_500 E w img mime r e)|].
      by apply (text_threw E w img mime r e).
Qed.

End MoreDerenderFacts.

(** X11.  A request whose [image] is missing or empty is answered 400
    [{error: "Image data is required"}] whatever the surroundings are: the
    API key is not looked at, the model is not called, nothing is stored. *)
Theorem image_is_required E w image mime :
  Derender.truthy image = false ->
  Derender.POST E (Derender.ObjectBody image mime) w
  = (Returned (Response 400 (Derender.ErrorBody "Image data is required" None None)),
     w).
Proof. apply MoreDerenderFacts.POST_without_image. Qed.

Lemma image_is_required_witness :
  Derender.POST (Scenario.studio Scenario.pictured)
                (Derender.ObjectBody (Some "") (Some "image/png")) Scenario.blank
  = (Returned (Response 400 (Derender.ErrorBody "Image data is required" None None)),
     Scenario.blank).
Proof.
  apply (image_is_required (Scenario.studio Scenario.pictured) Scenario.blank
           (Some "") (Some "image/png")).
  reflexivity.
Defined.

(** X12.  With an image but no API key (unset or empty), the answer is 500
    [{error: "GOOGLE_API_KEY is not set"}]; the model is not called and
    nothing is stored. *)
Theorem api_key_is_required E w image mime :
  Derender.truthy image = true ->
  Derender.truthy (Derender.GOOGLE_API_KEY E) = false ->
  Derender.POST E (Derender.ObjectBody image mime) w
  = (Returned (Response 500
                 (Derender.ErrorBody "GOOGLE_API_KEY is not set" None None)),
     w).
Proof. apply MoreDerenderFacts.POST_without_key. Qed.

Lemma api_key_is_required_witness :
  Derender.POST Cases.noKey (Derender.ObjectBody (Some "QUJD") None) Scenario.blank
  = (Returned (Response 500
                 (Derender.ErrorBody "GOOGLE_API_KEY is not set" None None)),
     Scenario.blank).
Proof.
  apply (api_key_is_required Cases.noKey Scenario.blank (Some "QUJD") None);
    reflexivity.
Defined.

(** X13.  When the model call throws, the answer is 500 with the generic
    error body carrying the message of what was thrown, and nothing is
    stored. *)
Theorem model_failure_is_500 E w img mime e :
  nonEmpty img = true ->
  Derender.truthy (Derender.GOOGLE_API_KEY E) = true ->
  Derender.generateContent E
    (Derender.InlineData img (Derender.orElse mime "image/jpeg")) = Threw e ->
  Derender.POST E (Derender.ObjectBody (Some img) mime) w
  = (Returned (Response 500
                 (Derender.ErrorBody "Internal Server Error" None
                                     (Some (errorText e)))),
     w).
Proof. apply MoreDerenderFacts.POST_model_throws. Qed.

Lemma model_failure_is_500_witness :
  Derender.POST Cases.modelDown (Derender.ObjectBody (Some "QUJD") None)
                Scenario.blank
  = (Returned (Response 500
                 (Derender.ErrorBody "Internal Server Error" None
                                     (Some "quota exceeded"))),
     Scenario.blank).
Proof.
  apply (model_failure_is_500 Cases.modelDown Scenario.blank "QUJD" None
           (ErrorObject "quota exceeded")); reflexivity.
Defined.

(** X14.  The image is looked for in the first candidate only, and the first
    part that carries inline data wins: parts before it without inline data,
    parts after it and further candidates do not matter. *)
Theorem first_inline_part_wins pre p post others d t :
  Forall (fun q => Derender.partInlineData q = None) pre ->
  Derender.partInlineData p = Some d ->
  Derender.findInlineData
    (Derender.ModelResponse
       (Some (Derender.Candidate
                (Some (Derender.Content (Some (pre ++ p :: post)))) :: others))
       t)
  = Some d.
Proof.
  intros Hpre Hp. unfold Derender.findInlineData, Derender.firstParts. simpl.
  induction Hpre as [|q pre Hq _ IH]; simpl.
  - rewrite Hp. simpl. exact Hp.
  - rewrite Hq. simpl. exact IH.
Qed.

Lemma first_inline_part_wins_witness :
  Derender.findInlineData
    (Derender.ModelResponse
       (Some [Derender.Candidate
                (Some (Derender.Content
                         (Some [Derender.Part None (Some "Here you go");
                                Derender.Part
                                  (Some (Derender.InlineData "QUJD" "image/png"))
                                  None;
                                Derender.Part
                                  (Some (Derender.InlineData "REVG" "image/webp"))
                                  None])));
              Derender.Candidate
                (Some (Derender.Content
                         (Some [Derender.Part
                                  (Some (Derender.InlineData "R0hJ" "image/gif"))
                                  None])))])
       (Returned None))
  = Some (Derender.InlineData "QUJD" "image/png").
Proof.
  apply (first_inline_part_wins
           [Derender.Part None (Some "Here you go")]
           (Derender.Part (Some (Derender.InlineData "QUJD" "image/png")) None)
           [Derender.Part (Some (Derender.InlineData "REVG" "image/webp")) None]).
  - by constructor.
  - reflexivity.
Defined.

(** X15.  When an inline part is found and neither upload nor the record
    write throws, the handler stores the request's image as
    [generations/<t>/original.jpg] with the request's MIME type (or
    [image/jpeg]) and the part's data as [generations/<t>/processed.jpg] with
    the part's MIME type, both public, [t] being one reading of the clock,
    and appends one record carrying [t], the two public URLs, the two MIME
    types, the model name and the prompt. *)
Theorem generation_is_recorded E w img mime r out :
  nonEmpty img = true ->
  Derender.truthy (Derender.GOOGLE_API_KEY E) = true ->
  Derender.generateContent E
    (Derender.InlineData img (Derender.orElse mime "image/jpeg")) = Returned r ->
  Derender.findInlineData r = Some out ->
  let t := Derender.clock E (Derender.ticks w) in
  Derender.saveFault E (objectName t "original.jpg") = None ->
  Derender.saveFault E (objectName t "processed.jpg") = None ->
  Derender.addFault E (recordOf t mime out) = None ->
  Derender.POST E (Derender.ObjectBody (Some img) mime) w
  = (Returned (Response 200
                 (Derender.ImageBody (Derender.data out) (Derender.mimeType out))),
     Derender.World
       (<[objectName t "processed.jpg" :=
            Derender.StoredObject (Derender.data out) (Derender.mimeType out) true]>
          (<[objectName t "original.jpg" :=
               Derender.StoredObject img (Derender.orElse mime "image/jpeg") true]>
             (Derender.objects w)))
       (Derender.generations w ++ [recordOf t mime out])
       (S (Derender.ticks w))).
Proof.
  intros Himg Hkey Hgen Hfind t Hs1 Hs2 Hadd.
  rewrite (MoreDerenderFacts.POST_with_image E w img mime r out) by done.
  rewrite MoreDerenderFacts.persist_steps. fold t. by rewrite Hs1, Hs2, Hadd.
Qed.

Lemma generation_is_recorded_witness :
  Derender.generations
    (Derender.POST (Scenario.studio Scenario.pictured)
                   (Derender.ObjectBody (Some "QUJD") None) Scenario.blank).2
  = [recordOf 1700000000000 None (Derender.InlineData "QUJD" "image/png")].
Proof.
  rewrite (generation_is_recorded (Scenario.studio Scenario.pictured)
             Scenario.blank "QUJD" None Scenario.pictured
             (Derender.InlineData "QUJD" "image/png")); reflexivity.
Defined.

(** X16.  Whatever the request and whatever fails, the handler touches no
    object other than the two of its own generation, never removes or changes
    an earlier record, and adds at most one record; when it adds one, both
    objects the record points at are in the bucket, public, with the MIME
    types the record states. *)
Theorem record_only_after_both_uploads E b w :
  let w' := (Derender.POST E b w).2 in
  let t := Derender.clock E (Derender.ticks w) in
  (forall name,
      name <> objectName t "original.jpg" ->
      name <> objectName t "processed.jpg" ->
      Derender.objects w' !! name = Derender.objects w !! name) /\
  (Derender.generations w' = Derender.generations w \/
   exists d,
     Derender.generations w' = Derender.generations w ++ [d] /\
     Derender.timestamp d = t /\
     Derender.originalImageUrl d = publicUrl (objectName t "original.jpg") /\
     Derender.processedImageUrl d = publicUrl (objectName t "processed.jpg") /\
     (exists o,
         Derender.objects w' !! objectName t "original.jpg" = Some o /\
         Derender.public o = true /\
         Derender.contentType o = Derender.originalMimeType d) /\
     (exists o,
         Derender.objects w' !! objectName t "processed.jpg" = Some o /\
         Derender.public o = true /\
         Derender.contentType o = Derender.processedMimeType d)).
Proof.
  intros w' t. subst w'.
  destruct (MoreDerenderFacts.POST_course E b w) as (resp & w' & -> & Hc).
  simpl. pose proof (MoreDerenderFacts.objectName_distinct t) as Hne.
  destruct Hc; try (split; [done|by left]).
  rewrite MoreDerenderFacts.persist_steps. fold t.
  destruct (Derender.saveFault E (objectName t "original.jpg"));
    [split; [done|by left]|].
  destruct (Derender.saveFault E (objectName t "processed.jpg")); simpl.
  { split; [|by left]. intros name H1 _. by rewrite lookup_insert_ne. }
  destruct (Derender.addFault E (recordOf t mime out)); simpl.
  { split; [|by left]. intros name H1 H2. by rewrite !lookup_insert_ne. }
  split.
  - intros name H1 H2. by rewrite !lookup_insert_ne.
  - right. exists (recordOf t mime out). split_and!; try done.
    + eexists. rewrite lookup_insert_ne, lookup_insert_eq by done. done.
    + eexists. rewrite lookup_insert_eq. done.
Qed.

(** X17.  A request without [mimeType], or with an empty one, is handled
    exactly like the same request with [mimeType] ['image/jpeg']: the model
    call, the stored original, the record and the answer are the same. *)
Theorem mime_type_defaults_to_jpeg E w image :
  Derender.POST E (Derender.ObjectBody image None) w
  = Derender.POST E (Derender.ObjectBody image (Some "image/jpeg")) w /\
  Derender.POST E (Derender.ObjectBody image (Some "")) w
  = Derender.POST E (Derender.ObjectBody image (Some "image/jpeg")) w.
Proof. split; reflexivity. Qed.

(** X18.  The generation handler never lets an exception out.  It answers
    200 (with the image, or with the no-image error body), 400 (image
    required) or 500 (key not set, or the generic error body), and only the
    200 answer with an image can have stored anything. *)
Theorem generation_always_answers E b w :
  exists resp w',
    Derender.POST E b w = (Returned resp, w') /\
    ((Js.status resp = 200%Z /\
      exists data mime, body resp = Derender.ImageBody data mime) \/
     (w' = w /\
      ((Js.status resp = 200%Z /\
        exists t, body resp = Derender.ErrorBody "No image generated by model" t None) \/
       (Js.status resp = 400%Z /\
        body resp = Derender.ErrorBody "Image data is required" None None) \/
       (Js.status resp = 500%Z /\
        body resp = Derender.ErrorBody "GOOGLE_API_KEY is not set" None None) \/
       (Js.status resp = 500%Z /\
        exists m, body resp
                  = Derender.ErrorBody "Internal Server Error" None (Some m))))).
Proof.
  destruct (MoreDerenderFacts.POST_course E b w) as (resp & w' & Hpost & Hc).
  exists resp, w'. split; [done|].
  destruct Hc; simpl; eauto 10.
Qed.

(** X19.  When no inline part is found and [response.text()] returns, the
    answer is 200 with the no-image error body, whose [rawText] is exactly
    what [text()] returned, and nothing is stored. *)
Theorem no_image_echoes_text E w img mime r t :
  nonEmpty img = true ->
  Derender.truthy (Derender.GOOGLE_API_KEY E) = true ->
  Derender.generateContent E
    (Derender.InlineData img (Derender.orElse mime "image/jpeg")) = Returned r ->
  Derender.findInlineData r = None ->
  Derender.text r = Returned t ->
  Derender.POST E (Derender.ObjectBody (Some img) mime) w
  = (Returned (Response 200
                 (Derender.ErrorBody "No image generated by model" t None)),
     w).
Proof. apply DerenderFacts.no_image_answer. Qed.

Lemma no_image_echoes_text_witness :
  Derender.POST (Scenario.studio Cases.talkative)
                (Derender.ObjectBody (Some "QUJD") None) Scenario.blank
  = (Returned (Response 200
                 (Derender.ErrorBody "No image generated by model"
                                     (Some "I cannot do that") None)),
     Scenario.blank).
Proof.
  apply (no_image_echoes_text (Scenario.studio Cases.talkative) Scenario.blank
           "QUJD" None Cases.talkative (Some "I cannot do that")); reflexivity.
Defined.

(** ** Initialisation of the Admin SDK *)

(** X20.  Evaluating the initialisation block never throws.  With an app
    already registered it does nothing, whatever the surroundings.  From no
    app it registers the app of lines 15-19 when both [credential.cert] and
    [initializeApp] succeed, and none when either throws.  So once an
    evaluation has registered an app, evaluating the block again, under any
    surroundings, changes nothing; after an evaluation that registered none,
    the next one tries again. *)
Theorem initialization_registers_once E apps :
  let options :=
    Admin.AppOptions (Admin.serviceAccountPath E) "melaleuca-mirror"
                     "melaleuca-mirror.firebasestorage.app" in
  (apps <> [] -> Admin.initialize E apps = (Returned tt, apps)) /\
  (apps = [] ->
   Admin.initialize E apps
   = (Returned tt,
      match Admin.certFault E (Admin.serviceAccountPath E),
            Admin.initFault E options with
      | None, None => [options]
      | _, _ => []
      end)) /\
  (forall E2,
      (Admin.initialize E apps).2 <> [] ->
      Admin.initialize E2 (Admin.initialize E apps).2
      = (Returned tt, (Admin.initialize E apps).2)) /\
  (forall E2,
      (Admin.initialize E apps).2 = [] ->
      Admin.initialize E2 (Admin.initialize E apps).2
      = Admin.initialize E2 []).
Proof.
  intros options.
  assert (forall E' l, l <> [] -> Admin.initialize E' l = (Returned tt, l)) as Hskip.
  { intros E' [|a l] Hl; done. }
  split_and!.
  - apply Hskip.
  - intros ->. subst options.
    unfold Admin.initialize, tryCatch, bind, Admin.cert, Admin.initializeApp, ret.
    simpl.
    destruct (Admin.certFault E (Admin.serviceAccountPath E)); [done|].
    by destruct (Admin.initFault E _).
  - intros E2 Hne. by apply Hskip.
  - intros E2 ->. done.
Qed.

Lemma initialization_registers_once_witness :
  Admin.initialize Cases.installed []
  = (Returned tt,
     [Admin.AppOptions
        "/app/from_richard/melaleuca-mirror-firebase-adminsdk-fbsvc-530d25589e.json"
        "melaleuca-mirror" "melaleuca-mirror.firebasestorage.app"]) /\
  Admin.initialize Cases.noCredential (Admin.initialize Cases.installed []).2
  = (Returned tt, (Admin.initialize Cases.installed []).2) /\
  Admin.initialize Cases.noCredential [] = (Returned tt, []) /\
  Admin.initialize Cases.installed (Admin.initialize Cases.noCredential []).2
  = Admin.initialize Cases.installed [].
Proof.
  destruct (initialization_registers_once Cases.installed [])
    as (_ & Hfresh & Hagain & _).
  destruct (initialization_registers_once Cases.noCredential [])
    as (_ & Hfailed & _ & Hretry).
  split; [exact (Hfresh eq_refl)|].
  split; [apply Hagain; by vm_compute|].
  split; [exact (Hfailed eq_refl)|].
  apply Hretry. reflexivity.
Defined.
